(** * PythonEditor: the execution coordinator of [PythonRunner]

    A shallow embedding of the [PythonRunner] class of the browser Python
    editor (the Pyodide integration in [script.js]) together with the
    [OutputCapture] helper it installs inside the interpreter, and the
    properties of the run/initialise life cycle that follow from the code. *)

From Stdlib Require Import String Ascii ZArith List Bool Lia DecimalString.
From Stdlib Require Import Sorted Permutation.
From stdpp Require Import base list gmap strings.
Import ListNotations.
Local Open Scope string_scope.
Local Open Scope list_scope.

(** ** JavaScript strings, values and errors *)

Module Js.

(** A string is a sequence of code units; the model keeps the code units
    below 256, which is where all the text produced by the runner lives. *)

(** [String.prototype.trim] strips WhiteSpace and LineTerminator code units:
    TAB, LF, VT, FF, CR, SPACE and NO-BREAK SPACE are the ones below 256. *)
Definition is_whitespace (c : ascii) : bool :=
  let n := nat_of_ascii c in
  ((9 <=? n)%nat && (n <=? 13)%nat) || (n =? 32)%nat || (n =? 160)%nat.

Fixpoint trimStart (s : string) : string :=
  match s with
  | EmptyString => EmptyString
  | String c s' => if is_whitespace c then trimStart s' else s
  end.

Fixpoint trimEnd (s : string) : string :=
  match s with
  | EmptyString => EmptyString
  | String c s' =>
      match trimEnd s' with
      | EmptyString => if is_whitespace c then EmptyString else String c EmptyString
      | t => String c t
      end
  end.

Definition trim (s : string) : string := trimEnd (trimStart s).

(** Truthiness of a string: [if (s)] holds exactly for a non-empty string. *)
Definition truthy (s : string) : bool :=
  match s with
  | EmptyString => false
  | String _ _ => true
  end.

(** [hay.includes(needle)] *)
Fixpoint includes (needle hay : string) : bool :=
  String.prefix needle hay ||
  match hay with
  | EmptyString => false
  | String _ hay' => includes needle hay'
  end.

Fixpoint all_whitespace (s : string) : bool :=
  match s with
  | EmptyString => true
  | String c s' => is_whitespace c && all_whitespace s'
  end.

(** The values [pyodide.runPython] hands back to JavaScript. Python's [None]
    arrives as [undefined]; other Python objects arrive converted (numbers,
    strings, booleans) or wrapped in a proxy whose [String()] is the Python
    [str()] of the object. Only integral numbers are modelled. *)
Inductive Value : Type :=
  | undefined
  | null
  | JsString (s : string)
  | JsInt (z : Z)
  | JsBool (b : bool)
  | PyProxy (str : string).

(** [String(v)] *)
Definition String_ (v : Value) : string :=
  match v with
  | undefined => "undefined"
  | null => "null"
  | JsString s => s
  | JsInt z => NilZero.string_of_int (Z.to_int z)
  | JsBool true => "true"
  | JsBool false => "false"
  | PyProxy str => str
  end.

(** [v !== undefined && v !== null] *)
Definition is_present (v : Value) : bool :=
  match v with
  | undefined | null => false
  | _ => true
  end.

(** An [Error] object, with [Error.prototype.toString]. *)
Record Error : Type := mkError { name : string; message : string }.

Definition toString (e : Error) : string :=
  match name e, message e with
  | EmptyString, m => m
  | n, EmptyString => n
  | n, m => (n ++ ": " ++ m)%string
  end.

(** The completion of a call: it returns a value or throws. *)
Inductive Completion (A : Type) : Type :=
  | Returned (a : A)
  | Thrown (e : Error).
Arguments Returned {A} a.
Arguments Thrown {A} e.

End Js.

Import Js.

(** ** The interpreter as the runner sees it

    The state of the embedded Python interpreter that the runner's scripts
    read and write: the two [sys] stream bindings, the [StringIO] objects
    allocated so far, and the global [_output_capture]. *)

Module Python.

(** What [sys.stdout] / [sys.stderr] can be bound to: the interpreter's own
    streams, or a [StringIO] object (by its index in the store). *)
Inductive Stream : Type :=
  | TtyOut
  | TtyErr
  | StringIO (id : nat).

(** An instance of the Python class [OutputCapture]. *)
Record OutputCapture : Type := mkCapture {
  self_stdout : nat;
  self_stderr : nat;
  original_stdout : Stream;
  original_stderr : Stream
}.

Record Interp : Type := mkInterp {
  sys_stdout : Stream;
  sys_stderr : Stream;
  stringios : list string;
  output_capture : option OutputCapture;   (* the global [_output_capture] *)
  tty_out : string;
  tty_err : string
}.

Definition set_streams (out err : Stream) (py : Interp) : Interp :=
  mkInterp out err (stringios py) (output_capture py) (tty_out py) (tty_err py).

(** A freshly loaded interpreter. *)
Definition fresh : Interp := mkInterp TtyOut TtyErr [] None "" "".

(** [stream.write(s)] *)
Definition write (st : Stream) (s : string) (py : Interp) : Interp :=
  match st with
  | TtyOut =>
      mkInterp (sys_stdout py) (sys_stderr py) (stringios py) (output_capture py)
               (tty_out py ++ s)%string (tty_err py)
  | TtyErr =>
      mkInterp (sys_stdout py) (sys_stderr py) (stringios py) (output_capture py)
               (tty_out py) (tty_err py ++ s)%string
  | StringIO id =>
      mkInterp (sys_stdout py) (sys_stderr py)
               (alter (fun b => (b ++ s)%string) id (stringios py))
               (output_capture py) (tty_out py) (tty_err py)
  end.

(** The text of the [PythonError] thrown when a script names a global that
    is not defined (the traceback is abbreviated to its first and last
    lines). *)
Definition NameError (global : string) : Error :=
  mkError "PythonError"
    ("Traceback (most recent call last): NameError: name '" ++ global
      ++ "' is not defined")%string.

Definition AttributeError : Error :=
  mkError "PythonError"
    "Traceback (most recent call last): AttributeError: getvalue".

(** Body of [OutputCapture.reset]: two new [StringIO] objects, and the
    current [sys] streams recorded as the originals. *)
Definition reset_body (py : Interp) : Interp :=
  let out := length (stringios py) in
  mkInterp (sys_stdout py) (sys_stderr py)
           (stringios py ++ [""; ""])
           (Some (mkCapture out (S out) (sys_stdout py) (sys_stderr py)))
           (tty_out py) (tty_err py).

(** The set-up script: it defines the class and binds
    [_output_capture = OutputCapture()], whose [__init__] calls [reset]. *)
Definition setup_script (py : Interp) : Completion unit * Interp :=
  (Returned tt, reset_body py).

(** [_output_capture.reset()] *)
Definition reset (py : Interp) : Completion unit * Interp :=
  match output_capture py with
  | None => (Thrown (NameError "_output_capture"), py)
  | Some _ => (Returned tt, reset_body py)
  end.

(** [_output_capture.start_capture()] *)
Definition start_capture (py : Interp) : Completion unit * Interp :=
  match output_capture py with
  | None => (Thrown (NameError "_output_capture"), py)
  | Some c =>
      (Returned tt, set_streams (StringIO (self_stdout c)) (StringIO (self_stderr c)) py)
  end.

(** [_output_capture.stop_capture()]: the streams are put back first, then
    the two buffers are read. *)
Definition stop_capture (py : Interp) : Completion (string * string) * Interp :=
  match output_capture py with
  | None => (Thrown (NameError "_output_capture"), py)
  | Some c =>
      let py' := set_streams (original_stdout c) (original_stderr c) py in
      match stringios py !! self_stdout c, stringios py !! self_stderr c with
      | Some stdout_value, Some stderr_value =>
          (Returned (stdout_value, stderr_value), py')
      | _, _ => (Thrown AttributeError, py')
      end
  end.

(** The script of the success path:
    [_output_capture.stop_capture()] on a line of its own, then
    [stdout_val, stderr_val = _output_capture.stop_capture()], and the pair
    as the value of the script. *)
Definition stop_script (py : Interp) : Completion (string * string) * Interp :=
  match stop_capture py with
  | (Thrown e, py') => (Thrown e, py')
  | (Returned _, py') => stop_capture py'
  end.

(** [begin] of the stream capture: [reset] followed by [start_capture], as
    the runner issues them. *)
Definition begin_capture (py : Interp) : Completion unit * Interp :=
  match reset py with
  | (Thrown e, py') => (Thrown e, py')
  | (Returned _, py') => start_capture py'
  end.

End Python.

Import Python.

(** ** The page and the runner object *)

(** The class of an output line: the [type] argument of [appendOutput]. *)
Inductive LineType : Type :=
  | system
  | stdout
  | stderr.

Record OutputLine : Type := mkLine { content : string; type : LineType }.

(** The elements of the page the runner holds on to. A child of [#output]
    is kept as the [(content, type)] it was built from; the clock reading
    that [appendOutput] puts in front of a system line is left out. *)
Record Page : Type := mkPage {
  outputElement : list OutputLine;   (* children of #output *)
  loadingIndicator : string;         (* style.display of #loadingIndicator *)
  statusElement : string;            (* textContent of #pyodideStatus *)
  loadingOverlay : option string;    (* style.display of #loadingOverlay, if present *)
  runBtn : string * bool             (* icon class, disabled *)
}.

Record PythonRunner : Type := mkRunner {
  pyodide : option Interp;           (* [None] is JavaScript's null *)
  isLoading : bool;
  isRunning : bool;
  page : Page;
  emitted : list OutputLine;         (* ghost: the calls of appendOutput, in order *)
  evaluated : list string            (* ghost: the sources passed to the interpreter by runCode *)
}.

Definition set_pyodide (p : option Interp) (r : PythonRunner) : PythonRunner :=
  mkRunner p (isLoading r) (isRunning r) (page r) (emitted r) (evaluated r).

Definition set_isLoading (b : bool) (r : PythonRunner) : PythonRunner :=
  mkRunner (pyodide r) b (isRunning r) (page r) (emitted r) (evaluated r).

Definition set_isRunning (b : bool) (r : PythonRunner) : PythonRunner :=
  mkRunner (pyodide r) (isLoading r) b (page r) (emitted r) (evaluated r).

Definition set_page (p : Page) (r : PythonRunner) : PythonRunner :=
  mkRunner (pyodide r) (isLoading r) (isRunning r) p (emitted r) (evaluated r).

Definition maxLines : nat := 1000.

(** The loop that bounds the log: [lines] is a live collection, so its
    length is read again at each test. *)
Fixpoint drop_excess (fuel i : nat) (lines : list OutputLine) : list OutputLine :=
  match fuel with
  | O => lines
  | S fuel' =>
      if (i <? length lines - maxLines)%nat
      then drop_excess fuel' (S i) (tail lines)
      else lines
  end.

Definition appendOutput (content : string) (type : LineType) (r : PythonRunner)
  : PythonRunner :=
  let outputLine := mkLine content type in
  let p := page r in
  let children := outputElement p ++ [outputLine] in
  let p' := mkPage (drop_excess (length children) 0 children)
                   (loadingIndicator p) (statusElement p) (loadingOverlay p) (runBtn p) in
  mkRunner (pyodide r) (isLoading r) (isRunning r) p'
           (emitted r ++ [outputLine]) (evaluated r).

Definition showLoading (show : bool) (r : PythonRunner) : PythonRunner :=
  let p := page r in
  set_page (mkPage (outputElement p) (if show then "flex" else "none")
                   (statusElement p) (loadingOverlay p) (runBtn p)) r.

Definition hideLoadingOverlay (r : PythonRunner) : PythonRunner :=
  let p := page r in
  set_page (mkPage (outputElement p) (loadingIndicator p) (statusElement p)
                   (match loadingOverlay p with
                    | Some _ => Some "none"
                    | None => None
                    end)
                   (runBtn p)) r.

Definition updateStatus (message : string) (r : PythonRunner) : PythonRunner :=
  let p := page r in
  set_page (mkPage (outputElement p) (loadingIndicator p) message
                   (loadingOverlay p) (runBtn p)) r.

Definition updateRunButton (running : bool) (r : PythonRunner) : PythonRunner :=
  let p := page r in
  set_page (mkPage (outputElement p) (loadingIndicator p) (statusElement p)
                   (loadingOverlay p)
                   (if running then ("fas fa-spinner fa-spin", true)
                    else ("fas fa-play", false))) r.

(** [this.pyodide.runPython(script)]: a property access on null throws a
    [TypeError] (the message is the one V8 gives). *)
Definition null_TypeError : Error :=
  mkError "TypeError" "Cannot read properties of null (reading 'runPython')".

Definition runPython {A : Type} (script : Interp -> Completion A * Interp)
    (r : PythonRunner) : Completion A * PythonRunner :=
  match pyodide r with
  | None => (Thrown null_TypeError, r)
  | Some py =>
      let (res, py') := script py in
      (res, set_pyodide (Some py') r)
  end.

(** *** Initialisation *)

(** How [await loadPyodide(...)] ends. *)
Inductive LoadOutcome : Type :=
  | Loaded
  | LoadFailed (e : Error).

(** [init] up to its first [await]. *)
Definition init_begin (r : PythonRunner) : PythonRunner :=
  showLoading true (updateStatus "Loading Python environment..." r).

Definition setupPythonEnvironment (r : PythonRunner) : Completion unit * PythonRunner :=
  runPython setup_script r.

(** The [catch] block of [init]. *)
Definition init_catch (error : Error) (r : PythonRunner) : PythonRunner :=
  appendOutput ("Error initializing Python: " ++ message error)%string stderr
    (hideLoadingOverlay
       (showLoading false
          (updateStatus "Python failed to load" (set_isLoading false r)))).

(** [init] from the point where [loadPyodide] has settled. *)
Definition init_resume (o : LoadOutcome) (r : PythonRunner) : PythonRunner :=
  match o with
  | LoadFailed e => init_catch e r
  | Loaded =>
      match setupPythonEnvironment (set_pyodide (Some fresh) r) with
      | (Thrown e, r1) => init_catch e r1
      | (Returned _, r1) =>
          appendOutput "You can now run Python code." system
            (appendOutput "Python environment initialized successfully!" system
               (hideLoadingOverlay
                  (showLoading false
                     (updateStatus "Python ready" (set_isLoading false r1)))))
      end
  end.

(** [new PythonRunner()] on a page: the fields are set and [init] is
    started. *)
Definition constructor (p : Page) : PythonRunner :=
  init_begin (mkRunner None true false p [] []).

(** [isReady()] *)
Definition isReady (r : PythonRunner) : bool :=
  negb (isLoading r) && match pyodide r with Some _ => true | None => false end.

(** *** Running code *)

(** [formatPythonError]; [toString] of an [Error] object does not throw, so
    the fallback of its [catch] is never taken. *)
Definition formatPythonError (error : Error) : string :=
  let errorStr := toString error in
  if includes "Traceback" errorStr then errorStr
  else ("Error: " ++ errorStr)%string.

(** The four display tests of the success path. *)
Definition show_output (stdout_ stderr_ : string) (result : Value)
    (r : PythonRunner) : PythonRunner :=
  let r1 := if truthy stdout_ then appendOutput (trim stdout_) stdout r else r in
  let r2 := if truthy stderr_ then appendOutput (trim stderr_) stderr r1 else r1 in
  let r3 := if is_present result && negb (truthy stdout_)
            then appendOutput (String_ result) stdout r2 else r2 in
  if negb (truthy stdout_) && negb (truthy stderr_)
  then appendOutput "Code executed successfully (no output)" system r3
  else r3.

(** The inner [catch (pythonError)]: one more [stop_capture], whose own
    failure is ignored, then the formatted error. *)
Definition on_python_error (pythonError : Error) (r : PythonRunner) : PythonRunner :=
  let r1 := snd (runPython stop_capture r) in
  appendOutput (formatPythonError pythonError) stderr r1.

(** The outer [catch (error)]. *)
Definition on_runtime_error (error : Error) (r : PythonRunner) : PythonRunner :=
  appendOutput ("Runtime Error: " ++ message error)%string stderr r.

(** The [finally] block. *)
Definition run_finally (r : PythonRunner) : PythonRunner :=
  appendOutput ">>> Execution complete." system
    (updateRunButton false (showLoading false (set_isRunning false r))).

(** How far a call of [runCode] gets before the user's code is evaluated. *)
Inductive Entry : Type :=
  | Refused                      (* one of the three early returns *)
  | Aborted                      (* the capture could not be started *)
  | Evaluating (code : string).  (* the interpreter is given [code] *)

(** [runCode] up to the evaluation of the user's code; [text] is what
    [window.pythonEditor.getValue()] returns. *)
Definition runCode_enter (text : string) (r : PythonRunner) : Entry * PythonRunner :=
  if isLoading r then
    (Refused, appendOutput "Python environment is still loading. Please wait..." system r)
  else if isRunning r then
    (Refused, appendOutput "Code is already running. Please wait..." system r)
  else
    let code := trim text in
    if negb (truthy code) then
      (Refused, appendOutput "No code to execute." system r)
    else
      let r1 := updateRunButton true (showLoading true (set_isRunning true r)) in
      let r2 := appendOutput ">>> Running Python code..." system r1 in
      match runPython reset r2 with
      | (Thrown e, r3) => (Aborted, run_finally (on_runtime_error e r3))
      | (Returned _, r3) =>
          match runPython start_capture r3 with
          | (Thrown e, r4) => (Aborted, run_finally (on_runtime_error e r4))
          | (Returned _, r4) => (Evaluating code, r4)
          end
      end.

(** [runCode] from the point where the evaluation of the user's code has
    returned [Returned result] or thrown. *)
Definition runCode_resume (res : Completion Value) (r : PythonRunner) : PythonRunner :=
  run_finally
    match res with
    | Thrown pythonError => on_python_error pythonError r
    | Returned result =>
        match runPython stop_script r with
        | (Thrown pythonError, r1) => on_python_error pythonError r1
        | (Returned (capturedStdout, capturedStderr), r1) =>
            show_output capturedStdout capturedStderr result r1
        end
    end.

Section Runner.

(** What the interpreter does with a piece of user code: the value of the
    code or the error it throws, and the interpreter afterwards. *)
Variable python : string -> Interp -> Completion Value * Interp.

(** [this.pyodide.runPython(code)] for the user's code. *)
Definition evaluate (code : string) (r : PythonRunner) : Completion Value * PythonRunner :=
  match runPython (python code) r with
  | (res, r') =>
      (res,
       match pyodide r with
       | None => r'
       | Some _ =>
           mkRunner (pyodide r') (isLoading r') (isRunning r') (page r')
                    (emitted r') (evaluated r' ++ [code])
       end)
  end.

Definition runCode (text : string) (r : PythonRunner) : PythonRunner :=
  match runCode_enter text r with
  | (Evaluating code, r1) =>
      let (res, r2) := evaluate code r1 in
      runCode_resume res r2
  | (_, r1) => r1
  end.

End Runner.

(** ** The life cycle seen from outside

    While the interpreter evaluates the user's code, that code can reach
    back into the page and ask for another run; the runner is then entered
    again before the first call has resumed. A world is the runner together
    with the calls of [runCode] that are inside the evaluation. *)

Record World : Type := mkWorld {
  runner : PythonRunner;
  in_flight : list string
}.

Inductive Action : Type :=
  | Request (text : string)       (* runCode() is called with [text] in the editor *)
  | Resume                        (* the innermost evaluation comes back *)
  | LoadSettled (o : LoadOutcome). (* loadPyodide settles *)

Section Worlds.

Variable python : string -> Interp -> Completion Value * Interp.

Definition act (a : Action) (w : World) : option World :=
  match a with
  | Request text =>
      match runCode_enter text (runner w) with
      | (Evaluating code, r') => Some (mkWorld r' (code :: in_flight w))
      | (_, r') => Some (mkWorld r' (in_flight w))
      end
  | Resume =>
      match in_flight w with
      | [] => None
      | code :: rest =>
          let (res, r') := evaluate python code (runner w) in
          Some (mkWorld (runCode_resume res r') rest)
      end
  | LoadSettled o =>
      if isLoading (runner w)
      then Some (mkWorld (init_resume o (runner w)) (in_flight w))
      else None
  end.

Fixpoint run_actions (acts : list Action) (w : World) : option World :=
  match acts with
  | [] => Some w
  | a :: acts' =>
      match act a w with
      | Some w' => run_actions acts' w'
      | None => None
      end
  end.

End Worlds.

(** The world right after [new PythonRunner()]. *)
Definition boot (p : Page) : World := mkWorld (constructor p) [].

(** ** The coordinator states of the specification *)

Inductive ExecutionState : Type :=
  | Uninitialized
  | Loading
  | Ready
  | Failed
  | Running.

(** The state a runner is in, read off its fields: loading until [init]
    has settled, failed when it settled without an interpreter. *)
Definition phase (r : PythonRunner) : ExecutionState :=
  if isLoading r then Loading
  else match pyodide r with
       | None => Failed
       | Some _ => if isRunning r then Running else Ready
       end.

(** A call of [runCode] is rejected when all it does is emit one system
    line. *)
Definition rejected (before after : PythonRunner) : Prop :=
  exists notice, after = appendOutput notice system before.

(** ** A few Python programs

    What the interpreter does with some small programs; used to run the
    model on concrete inputs. *)

Definition newline : string := String (ascii_of_nat 10) EmptyString.

Definition ZeroDivisionError : Error :=
  mkError "PythonError"
    "Traceback (most recent call last): ZeroDivisionError: division by zero".

Definition sample_python (code : string) (py : Interp) : Completion Value * Interp :=
  if String.eqb code "1+1" then (Returned (JsInt 2), py)
  else if String.eqb code "print('hi')" then
    (Returned undefined, write (sys_stdout py) ("hi" ++ newline)%string py)
  else if String.eqb code "import sys; sys.stderr.write('warn')" then
    (Returned (JsInt 4), write (sys_stderr py) "warn" py)
  else if String.eqb code "print('hi'); import sys; sys.stderr.write('warn')" then
    (Returned (JsInt 4),
     write (sys_stderr py) "warn" (write (sys_stdout py) ("hi" ++ newline)%string py))
  else if String.eqb code "1/0" then (Thrown ZeroDivisionError, py)
  else if String.eqb code "print('hi'); 1/0" then
    (Thrown ZeroDivisionError, write (sys_stdout py) ("hi" ++ newline)%string py)
  else (Returned undefined, py).

(** A page with an empty log. *)
Definition empty_page : Page := mkPage [] "none" "" (Some "flex") ("fas fa-play", false).

(** A runner whose interpreter has loaded. *)
Definition ready_runner : PythonRunner := init_resume Loaded (constructor empty_page).

(** A runner whose interpreter failed to load. *)
Definition failed_runner : PythonRunner :=
  init_resume (LoadFailed (mkError "Error" "Failed to fetch")) (constructor empty_page).

(** ** Derived notions used in the statements *)

(** The runner once the guards have let a call through: the flag is up and
    the start line is out. *)
Definition announced (r : PythonRunner) : PythonRunner :=
  appendOutput ">>> Running Python code..." system
    (updateRunButton true (showLoading true (set_isRunning true r))).

(** What the four display tests append, as a list. *)
Definition shown_lines (out err : string) (result : Value) : list OutputLine :=
  (if truthy out then [mkLine (trim out) stdout] else []) ++
  (if truthy err then [mkLine (trim err) stderr] else []) ++
  (if is_present result && negb (truthy out)
   then [mkLine (String_ result) stdout] else []) ++
  (if negb (truthy out) && negb (truthy err)
   then [mkLine "Code executed successfully (no output)" system] else []).

(** The lines of an accepted run between the start line and the completion
    line, from the interpreter the runner holds when the call is made. *)
Definition run_body (python : string -> Interp -> Completion Value * Interp)
    (code : string) (handle : option Interp) : list OutputLine :=
  match handle with
  | None => [mkLine ("Runtime Error: " ++ message null_TypeError)%string stderr]
  | Some py =>
      match begin_capture py with
      | (Thrown e, _) => [mkLine ("Runtime Error: " ++ message e)%string stderr]
      | (Returned _, py1) =>
          match python code py1 with
          | (Thrown e, _) => [mkLine (formatPythonError e) stderr]
          | (Returned result, py2) =>
              match stop_capture py2 with
              | (Thrown e, _) => [mkLine (formatPythonError e) stderr]
              | (Returned (out, err), _) => shown_lines out err result
              end
          end
      end
  end.

(** All the lines one call of [runCode] emits. *)
Definition run_block (python : string -> Interp -> Completion Value * Interp)
    (text : string) (r : PythonRunner) : list OutputLine :=
  if isLoading r then
    [mkLine "Python environment is still loading. Please wait..." system]
  else if isRunning r then
    [mkLine "Code is already running. Please wait..." system]
  else if truthy (trim text) then
    [mkLine ">>> Running Python code..." system]
      ++ run_body python (trim text) (pyodide r)
      ++ [mkLine ">>> Execution complete." system]
  else [mkLine "No code to execute." system].

(** A sequence of calls of [runCode], one after the other, with the given
    editor texts. *)
Definition run_all (python : string -> Interp -> Completion Value * Interp)
    (texts : list string) (r : PythonRunner) : PythonRunner :=
  fold_left (fun r' text => runCode python text r') texts r.

(** The lines one call of [init] emits when its load settles. *)
Definition init_lines (o : LoadOutcome) : list OutputLine :=
  match o with
  | Loaded =>
      [mkLine "Python environment initialized successfully!" system;
       mkLine "You can now run Python code." system]
  | LoadFailed e =>
      [mkLine ("Error initializing Python: " ++ message e)%string stderr]
  end.

(** The calls inside the evaluation are counted by the running flag. *)
Definition flag_counts (w : World) : Prop :=
  length (in_flight w) = if isRunning (runner w) then 1 else 0.





(** The classes of the lines between the start line and the completion
    line, in order, that [runCode] can produce. *)
Definition body_shapes : list (list LineType) :=
  [[stdout]; [stdout; stderr]; [stderr]; [stderr; stdout]; [system]; [stdout; system]].

(** A runner inside the evaluation of an accepted call. *)
Definition running_runner : PythonRunner :=
  snd (runCode_enter "1+1" ready_runner).

(** A world after a load, a failing run with a refused request inside it,
    and a second accepted call that has not resumed yet. *)
Definition sample_world : World :=
  Eval vm_compute in
    match run_actions sample_python
            [LoadSettled Loaded; Request "1/0"; Request "1+1"; Resume;
             Request "print('hi')"; Request "x=1"]
            (boot empty_page) with
    | Some w => w
    | None => boot empty_page
    end.

(** An interpreter whose capture has begun and has received text on both
    streams. *)
Definition capturing_interp : Interp :=
  snd (sample_python "print('hi'); import sys; sys.stderr.write('warn')"
         (snd (begin_capture (snd (setup_script fresh))))).

(** An unpaired begin: the capture has been started and never stopped. *)
Definition abandoned_interp : Interp :=
  snd (begin_capture (snd (setup_script fresh))).

(** ** The other operations of the runner *)

(** [clearOutput]: the log is emptied, then one system line is appended. *)
Definition clearOutput (r : PythonRunner) : PythonRunner :=
  let p := page r in
  appendOutput "Output cleared." system
    (set_page (mkPage [] (loadingIndicator p) (statusElement p)
                      (loadingOverlay p) (runBtn p)) r).

(** How the promise of [pyodide.loadPackage] settles. *)
Inductive PackageOutcome : Type :=
  | PackageLoaded
  | PackageFailed (e : Error).

(** How far [installPackage] gets before it returns. *)
Inductive InstallEntry : Type :=
  | InstallRefused      (* the runner is still loading *)
  | InstallThrew        (* [loadPackage] could not be called *)
  | InstallPending.     (* the promise is pending *)

Definition null_loadPackage_TypeError : Error :=
  mkError "TypeError" "Cannot read properties of null (reading 'loadPackage')".

(** [installPackage] up to its return; the two promise callbacks are
    [installPackage_settle]. *)
Definition installPackage_begin (packageName : string) (r : PythonRunner)
  : InstallEntry * PythonRunner :=
  if isLoading r then
    (InstallRefused,
     appendOutput "Python environment is still loading. Please wait..." system r)
  else
    let r1 := appendOutput ("Installing package: " ++ packageName)%string system r in
    match pyodide r1 with
    | None =>
        (InstallThrew,
         appendOutput ("Failed to install " ++ packageName ++ ": "
                         ++ message null_loadPackage_TypeError)%string stderr r1)
    | Some _ => (InstallPending, r1)
    end.

Definition installPackage_settle (packageName : string) (o : PackageOutcome)
    (r : PythonRunner) : PythonRunner :=
  match o with
  | PackageLoaded =>
      appendOutput ("Successfully installed: " ++ packageName)%string system r
  | PackageFailed error =>
      appendOutput ("Failed to install " ++ packageName ++ ": " ++ message error)%string
        stderr r
  end.

(** The log holds no more children than the bound of [appendOutput]. *)
Definition log_bounded (r : PythonRunner) : Prop :=
  length (outputElement (page r)) <= maxLines.

(** The parts of the page other than the log. *)
Definition chrome (r : PythonRunner) : string * string * option string * (string * bool) :=
  (loadingIndicator (page r), statusElement (page r), loadingOverlay (page r),
   runBtn (page r)).

(** User code that leaves the global [_output_capture] as it found it. *)
Definition keeps_capture (python : string -> Interp -> Completion Value * Interp) : Prop :=
  forall code py, output_capture (snd (python code py)) = output_capture py.

(** The log shows the most recent of the emitted lines. *)
Definition log_is_recent (r : PythonRunner) : Prop :=
  outputElement (page r) `suffix_of` emitted r.

(** Since [r0], the lines emitted are the lines added to the log, as long as
    they fit. *)
Definition logged_since (r0 r : PythonRunner) : Prop :=
  exists block,
    emitted r = emitted r0 ++ block /\
    (length (outputElement (page r0)) + length block <= maxLines ->
     outputElement (page r) = outputElement (page r0) ++ block).

(** ** The editor object

    The [PythonEditor] class of [editor.js]: the text, the theme, the file
    name and the unsaved mark, what it shows in the document, and what it
    keeps in [localStorage]. *)

Module Editor.

(** [localStorage]. Either every access throws (storage disabled or denied),
    or none does. *)
Record Storage : Type := mkStorage {
  failure : option Error;
  items : gmap string string
}.

(** [localStorage.getItem(key)]: [None] when the access throws, else the
    item, [Some None] being JavaScript's null. *)
Definition getItem (key : string) (st : Storage) : option (option string) :=
  match failure st with
  | Some _ => None
  | None => Some (items st !! key)
  end.

(** [localStorage.setItem(key, value)]: [None] when the access throws. *)
Definition setItem (key value : string) (st : Storage) : option Storage :=
  match failure st with
  | Some _ => None
  | None => Some (mkStorage None (<[key := value]> (items st)))
  end.

Record PythonEditor : Type := mkEditor {
  value : string;             (* the text of the CodeMirror document *)
  themeOption : string;       (* CodeMirror's theme option *)
  currentTheme : string;
  isLightTheme : bool;
  fileName : string;
  hasUnsavedChanges : bool
}.

Record Document : Type := mkDocument {
  dataTheme : option string;  (* the data-theme attribute of the root element *)
  fileNameText : string;      (* textContent of #fileName *)
  title : string;             (* document.title *)
  statusText : string         (* textContent of #statusText *)
}.

Record Browser : Type := mkBrowser {
  editor : PythonEditor;
  document : Document;
  localStorage : Storage;
  downloads : list (string * string)   (* files handed to the user: name, content *)
}.

Definition set_editor (e : PythonEditor) (b : Browser) : Browser :=
  mkBrowser e (document b) (localStorage b) (downloads b).

Definition set_document (d : Document) (b : Browser) : Browser :=
  mkBrowser (editor b) d (localStorage b) (downloads b).

Definition set_localStorage (st : Storage) (b : Browser) : Browser :=
  mkBrowser (editor b) (document b) st (downloads b).

Definition set_value (v : string) (e : PythonEditor) : PythonEditor :=
  mkEditor v (themeOption e) (currentTheme e) (isLightTheme e) (fileName e)
           (hasUnsavedChanges e).

Definition set_fileName (f : string) (e : PythonEditor) : PythonEditor :=
  mkEditor (value e) (themeOption e) (currentTheme e) (isLightTheme e) f
           (hasUnsavedChanges e).

Definition set_hasUnsavedChanges (u : bool) (e : PythonEditor) : PythonEditor :=
  mkEditor (value e) (themeOption e) (currentTheme e) (isLightTheme e) (fileName e) u.

(** The light or the dark theme, in the editor and on the root element. *)
Definition set_theme (light : bool) (b : Browser) : Browser :=
  let e := editor b in
  let d := document b in
  let theme := if light then "default" else "monokai" in
  mkBrowser
    (mkEditor (value e) theme theme light (fileName e) (hasUnsavedChanges e))
    (mkDocument (Some (if light then "light" else "dark"))
                (fileNameText d) (title d) (statusText d))
    (localStorage b) (downloads b).

(** The bullet U+2022 that marks unsaved changes lies outside the code units
    the model keeps; it stands here as the three bytes of its UTF-8 form. The
    text is only displayed. *)
Definition bullet : string :=
  String (ascii_of_nat 226) (String (ascii_of_nat 128) (String (ascii_of_nat 162) "")).

Definition displayName (e : PythonEditor) : string :=
  if hasUnsavedChanges e then (fileName e ++ " " ++ bullet)%string else fileName e.

(** [updateFileName] *)
Definition updateFileName (b : Browser) : Browser :=
  let d := document b in
  set_document
    (mkDocument (dataTheme d) (displayName (editor b))
                (displayName (editor b) ++ " - Python Editor")%string (statusText d)) b.

(** [updateStatus]; the timer that puts the text back to "Ready" three
    seconds later is left out. *)
Definition updateStatus (message : string) (b : Browser) : Browser :=
  let d := document b in
  set_document (mkDocument (dataTheme d) (fileNameText d) (title d) message) b.

(** [saveToStorage]: an exception of the storage is caught and logged. *)
Definition saveToStorage (b : Browser) : Browser :=
  match setItem "editor_content" (value (editor b)) (localStorage b) with
  | None => b
  | Some st1 =>
      match setItem "editor_filename" (fileName (editor b)) st1 with
      | None => set_localStorage st1 b
      | Some st2 => set_localStorage st2 b
      end
  end.

(** The handler of the editor's [change] event. *)
Definition on_change (b : Browser) : Browser :=
  saveToStorage
    (updateFileName (set_editor (set_hasUnsavedChanges true (editor b)) b)).

(** [editor.setValue(v)]: CodeMirror replaces the text and signals [change]
    to the registered handler before it returns. (The cursor indicator that
    the [cursorActivity] handler maintains is not part of the model.) *)
Definition setValue (v : string) (b : Browser) : Browser :=
  on_change (set_editor (set_value v (editor b)) b).

(** The user edits the text to [v]. *)
Definition input (v : string) (b : Browser) : Browser :=
  on_change (set_editor (set_value v (editor b)) b).

Definition double_quote : string := String (ascii_of_nat 34) "".

Definition new_file_text : string :=
  ("# Welcome to Python Editor" ++ newline
     ++ "# Write your Python code here..." ++ newline ++ newline)%string.

Definition welcome_text : string :=
  (new_file_text ++ "print(" ++ double_quote ++ "Hello, World!" ++ double_quote ++ ")")%string.

(** The value of an item read from the storage is used when it is neither
    null nor the empty string. *)
Definition usable (item : option string) : option string :=
  match item with
  | Some s => if truthy s then Some s else None
  | None => None
  end.

(** [loadFromStorage]; an exception of the storage at any of the three reads
    ends in the [catch], which sets the welcome text. *)
Definition loadFromStorage (b : Browser) : Browser :=
  match getItem "editor_theme" (localStorage b) with
  | None => setValue welcome_text b
  | Some savedTheme =>
      let b1 :=
        match usable savedTheme with
        | Some t => set_theme (String.eqb t "light") b
        | None => b
        end in
      match getItem "editor_content" (localStorage b1) with
      | None => setValue welcome_text b1
      | Some savedContent =>
          let b2 :=
            match usable savedContent with
            | Some c => setValue c b1
            | None => setValue welcome_text b1
            end in
          match getItem "editor_filename" (localStorage b2) with
          | None => setValue welcome_text b2
          | Some savedFilename =>
              match usable savedFilename with
              | Some f => updateFileName (set_editor (set_fileName f (editor b2)) b2)
              | None => b2
              end
          end
      end
  end.

(** [new PythonEditor()] in a browser whose text area holds [textarea]: the
    fields are set, the CodeMirror instance is made from the text area with
    the theme "monokai", the handlers are registered, and the storage is
    read. *)
Definition constructor (textarea : string) (d : Document) (st : Storage)
    (dl : list (string * string)) : Browser :=
  loadFromStorage
    (mkBrowser (mkEditor textarea "monokai" "monokai" false "untitled.py" false) d st dl).

(** [toggleTheme]: the storage is written last, outside any [try]. *)
Definition toggleTheme (b : Browser) : Completion unit * Browser :=
  let light := negb (isLightTheme (editor b)) in
  let b1 := set_theme light b in
  match failure (localStorage b1) with
  | Some e => (Thrown e, b1)
  | None =>
      (Returned tt,
       set_localStorage
         (mkStorage None
            (<["editor_theme" := if light then "light" else "dark"]>
               (items (localStorage b1)))) b1)
  end.

(** [newFile]; [confirmed] is the user's answer to the confirmation, asked
    only when there are unsaved changes. *)
Definition newFile (confirmed : bool) (b : Browser) : Browser :=
  if hasUnsavedChanges (editor b) && negb confirmed then b
  else
    let b1 := setValue new_file_text b in
    let e := set_hasUnsavedChanges false (set_fileName "untitled.py" (editor b1)) in
    updateStatus "New file created" (updateFileName (set_editor e b1)).

(** [saveFile]: the text is handed to the user as a download under the
    current file name. *)
Definition saveFile (b : Browser) : Browser :=
  let content := value (editor b) in
  let b1 := mkBrowser (editor b) (document b) (localStorage b)
                      (downloads b ++ [(fileName (editor b), content)]) in
  let b2 := updateFileName (set_editor (set_hasUnsavedChanges false (editor b1)) b1) in
  updateStatus ("File saved as " ++ fileName (editor b2))%string b2.

(** The [onload] callback of [loadFile], for a file [name] whose text is
    [text]. *)
Definition loadFile_onload (name text : string) (b : Browser) : Browser :=
  let b1 := setValue text b in
  let e := set_hasUnsavedChanges false (set_fileName name (editor b1)) in
  let b2 := updateFileName (set_editor e b1) in
  updateStatus ("File loaded: " ++ fileName (editor b2))%string b2.

(** What happens to the editor during a session. *)
Inductive Event : Type :=
  | Input (v : string)
  | NewFile (confirmed : bool)
  | SaveFile
  | FileLoaded (name text : string)
  | ToggleTheme.

Definition handle (b : Browser) (ev : Event) : Browser :=
  match ev with
  | Input v => input v b
  | NewFile confirmed => newFile confirmed b
  | SaveFile => saveFile b
  | FileLoaded name text => loadFile_onload name text b
  | ToggleTheme => snd (toggleTheme b)
  end.

Definition session (evs : list Event) (b : Browser) : Browser :=
  fold_left handle evs b.

(** What a session keeps true of the browser: when the storage works it
    holds the text of the editor and agrees with the theme in use; the theme
    names go with the light flag; the document shows the file name with its
    unsaved mark. *)
Definition consistent (b : Browser) : Prop :=
  (failure (localStorage b) = None ->
   items (localStorage b) !! "editor_content" = Some (value (editor b))) /\
  (failure (localStorage b) = None ->
   isLightTheme (editor b) =
     match usable (items (localStorage b) !! "editor_theme") with
     | Some t => String.eqb t "light"
     | None => false
     end) /\
  currentTheme (editor b) = (if isLightTheme (editor b) then "default" else "monokai") /\
  themeOption (editor b) = currentTheme (editor b) /\
  fileNameText (document b) = displayName (editor b) /\
  title (document b) = (displayName (editor b) ++ " - Python Editor")%string.

(** A storage with nothing in it, a document, and a short session. *)
Definition empty_storage : Storage := mkStorage None ∅.

Definition blank_document : Document := mkDocument None "" "" "".

Definition sample_session : list Event :=
  [Input "x = 1"; ToggleTheme; FileLoaded "a.py" "print(1)"; Input "print(2)"; SaveFile].

(** *** Comments and completions *)

(** [s.startsWith(prefix)] *)
Definition startsWith (s prefix : string) : bool := String.prefix prefix s.

(** [toLowerCase] on the code units the model keeps: the letters A to Z and
    the capital letters of the Latin-1 block. *)
Definition toLowerCase_unit (c : ascii) : ascii :=
  let n := nat_of_ascii c in
  if ((65 <=? n)%nat && (n <=? 90)%nat)
     || ((192 <=? n)%nat && (n <=? 222)%nat && negb (n =? 215)%nat)
  then ascii_of_nat (n + 32) else c.

Fixpoint toLowerCase (s : string) : string :=
  match s with
  | EmptyString => EmptyString
  | String c s' => String (toLowerCase_unit c) (toLowerCase s')
  end.

(** The white space a line begins with: the match of [/^\s*/]. *)
Fixpoint leading_space (s : string) : string :=
  match s with
  | EmptyString => EmptyString
  | String c s' => if is_whitespace c then String c (leading_space s') else EmptyString
  end.

(** [line.replace(/^\s*#\s?/, '')]: leading white space, a hash and at most
    one white space after it are removed; a line where the pattern does not
    match is returned as it is. *)
Definition strip_comment_mark (line : string) : string :=
  match trimStart line with
  | String c rest =>
      if Ascii.eqb c "#" then
        match rest with
        | String c' rest' => if is_whitespace c' then rest' else rest
        | EmptyString => EmptyString
        end
      else line
  | EmptyString => line
  end.

(** What [toggleComment] puts in the place of the line of the cursor. *)
Definition toggleComment_line (line : string) : string :=
  if startsWith (trim line) "#" then strip_comment_mark line
  else (leading_space line ++ "# " ++ trim line)%string.

Definition pythonKeywords : list string :=
  ["and"; "as"; "assert"; "break"; "class"; "continue"; "def"; "del"; "elif";
   "else"; "except"; "exec"; "finally"; "for"; "from"; "global"; "if";
   "import"; "in"; "is"; "lambda"; "not"; "or"; "pass"; "print"; "raise";
   "return"; "try"; "while"; "with"; "yield"; "True"; "False"; "None";
   "async"; "await"; "nonlocal"].

Definition pythonBuiltins : list string :=
  ["abs"; "all"; "any"; "ascii"; "bin"; "bool"; "breakpoint"; "bytearray";
   "bytes"; "callable"; "chr"; "classmethod"; "compile"; "complex";
   "delattr"; "dict"; "dir"; "divmod"; "enumerate"; "eval"; "exec";
   "filter"; "float"; "format"; "frozenset"; "getattr"; "globals";
   "hasattr"; "hash"; "help"; "hex"; "id"; "input"; "int"; "isinstance";
   "issubclass"; "iter"; "len"; "list"; "locals"; "map"; "max";
   "memoryview"; "min"; "next"; "object"; "oct"; "open"; "ord"; "pow";
   "print"; "property"; "range"; "repr"; "reversed"; "round"; "set";
   "setattr"; "slice"; "sorted"; "staticmethod"; "str"; "sum"; "super";
   "tuple"; "type"; "vars"; "zip"; "__import__"].

Definition try_pattern : string :=
  ("try:" ++ newline ++ "    pass" ++ newline ++ "except Exception as e:"
     ++ newline ++ "    pass")%string.

(** [getPythonPatterns] *)
Definition getPythonPatterns (word : string) : list string :=
  let lowerWord := toLowerCase word in
  (if startsWith lowerWord "def" || String.eqb lowerWord "de"
   then ["def function_name():"] else [])
  ++ (if startsWith lowerWord "cla" || String.eqb lowerWord "cl"
      then ["class ClassName:"] else [])
  ++ (if startsWith lowerWord "if" || String.eqb lowerWord "i"
      then ["if condition:"] else [])
  ++ (if startsWith lowerWord "for" || String.eqb lowerWord "fo"
      then ["for item in iterable:"] else [])
  ++ (if startsWith lowerWord "whi" || String.eqb lowerWord "wh"
      then ["while condition:"] else [])
  ++ (if startsWith lowerWord "try" || String.eqb lowerWord "tr"
      then [try_pattern] else [])
  ++ (if startsWith lowerWord "imp" || String.eqb lowerWord "im"
      then ["import module"; "from module import function"] else []).

(** All the patterns [getPythonPatterns] can return. *)
Definition all_patterns : list string :=
  ["def function_name():"; "class ClassName:"; "if condition:";
   "for item in iterable:"; "while condition:"; try_pattern;
   "import module"; "from module import function"].

(** The groups of patterns, one for each construct. *)
Definition pattern_groups : list (list string) :=
  [[]; ["def function_name():"]; ["class ClassName:"]; ["if condition:"];
   ["for item in iterable:"]; ["while condition:"]; [try_pattern];
   ["import module"; "from module import function"]].

(** [Array.prototype.sort] without a comparison function, on strings: the
    order of the code units. Equal strings cannot be told apart, so the
    result does not depend on how the engine sorts. *)
Fixpoint insert_sorted (x : string) (l : list string) : list string :=
  match l with
  | [] => [x]
  | y :: l' => if String.leb x y then x :: l else y :: insert_sorted x l'
  end.

Fixpoint sort (l : list string) : list string :=
  match l with
  | [] => []
  | x :: l' => insert_sorted x (sort l')
  end.

(** The order of strings by their code units. *)
Definition code_unit_order (a b : string) : Prop := String.leb a b = true.

(** The test of the filter in the hint helper. *)
Definition completes (word item : string) : bool :=
  startsWith (toLowerCase item) (toLowerCase word).

(** The list of suggestions the hint helper returns for the word before the
    cursor ([None] when it returns null); the two positions that go with the
    list are left out. *)
Definition hint (word : string) : option (list string) :=
  if negb (truthy word) then None
  else
    let suggestions :=
      sort (List.filter (completes word) (pythonKeywords ++ pythonBuiltins)) in
    let suggestions :=
      if (2 <=? String.length word)%nat
      then getPythonPatterns word ++ suggestions else suggestions in
    match suggestions with
    | [] => None
    | _ => Some suggestions
    end.

End Editor.

(** ** Properties *)

(** *** Strings *)

Lemma trimStart_blank (s : string) :
  all_whitespace s = true -> trimStart s = EmptyString.
Proof.
  induction s as [|c s IH]; simpl; [reflexivity|].
  destruct (is_whitespace c); simpl; [exact IH | discriminate].
Qed.

Lemma trimStart_head (s : string) :
  all_whitespace s = false ->
  exists c s', trimStart s = String c s' /\ is_whitespace c = false.
Proof.
  induction s as [|c s IH]; simpl; [discriminate|].
  destruct (is_whitespace c) eqn:Hc; simpl.
  - exact IH.
  - intros _. exists c, s. split; [reflexivity | exact Hc].
Qed.

Lemma trimEnd_head (c : ascii) (s : string) :
  is_whitespace c = false -> truthy (trimEnd (String c s)) = true.
Proof.
  intros Hc. simpl. destruct (trimEnd s); [rewrite Hc|]; reflexivity.
Qed.

Lemma truthy_trim (s : string) : truthy (trim s) = negb (all_whitespace s).
Proof.
  unfold trim. destruct (all_whitespace s) eqn:Hs.
  - rewrite (trimStart_blank s Hs). reflexivity.
  - destruct (trimStart_head s Hs) as (c & s' & -> & Hc).
    apply trimEnd_head, Hc.
Qed.

Lemma truthy_false (s : string) : truthy s = false <-> s = EmptyString.
Proof. destruct s; simpl; split; congruence. Qed.

(** *** What the page operations leave alone *)

Lemma pyodide_appendOutput c t r : pyodide (appendOutput c t r) = pyodide r.
Proof. reflexivity. Qed.
Lemma isLoading_appendOutput c t r : isLoading (appendOutput c t r) = isLoading r.
Proof. reflexivity. Qed.
Lemma isRunning_appendOutput c t r : isRunning (appendOutput c t r) = isRunning r.
Proof. reflexivity. Qed.
Lemma emitted_appendOutput c t r :
  emitted (appendOutput c t r) = emitted r ++ [mkLine c t].
Proof. reflexivity. Qed.
Lemma evaluated_appendOutput c t r : evaluated (appendOutput c t r) = evaluated r.
Proof. reflexivity. Qed.

Lemma pyodide_set_page p r : pyodide (set_page p r) = pyodide r.
Proof. reflexivity. Qed.
Lemma isLoading_set_page p r : isLoading (set_page p r) = isLoading r.
Proof. reflexivity. Qed.
Lemma isRunning_set_page p r : isRunning (set_page p r) = isRunning r.
Proof. reflexivity. Qed.
Lemma emitted_set_page p r : emitted (set_page p r) = emitted r.
Proof. reflexivity. Qed.
Lemma evaluated_set_page p r : evaluated (set_page p r) = evaluated r.
Proof. reflexivity. Qed.

Lemma pyodide_set_isRunning b r : pyodide (set_isRunning b r) = pyodide r.
Proof. reflexivity. Qed.
Lemma isLoading_set_isRunning b r : isLoading (set_isRunning b r) = isLoading r.
Proof. reflexivity. Qed.
Lemma isRunning_set_isRunning b r : isRunning (set_isRunning b r) = b.
Proof. reflexivity. Qed.
Lemma emitted_set_isRunning b r : emitted (set_isRunning b r) = emitted r.
Proof. reflexivity. Qed.
Lemma evaluated_set_isRunning b r : evaluated (set_isRunning b r) = evaluated r.
Proof. reflexivity. Qed.

Lemma pyodide_set_isLoading b r : pyodide (set_isLoading b r) = pyodide r.
Proof. reflexivity. Qed.
Lemma isLoading_set_isLoading b r : isLoading (set_isLoading b r) = b.
Proof. reflexivity. Qed.
Lemma isRunning_set_isLoading b r : isRunning (set_isLoading b r) = isRunning r.
Proof. reflexivity. Qed.
Lemma emitted_set_isLoading b r : emitted (set_isLoading b r) = emitted r.
Proof. reflexivity. Qed.
Lemma evaluated_set_isLoading b r : evaluated (set_isLoading b r) = evaluated r.
Proof. reflexivity. Qed.

Lemma pyodide_set_pyodide p r : pyodide (set_pyodide p r) = p.
Proof. reflexivity. Qed.
Lemma isLoading_set_pyodide p r : isLoading (set_pyodide p r) = isLoading r.
Proof. reflexivity. Qed.
Lemma isRunning_set_pyodide p r : isRunning (set_pyodide p r) = isRunning r.
Proof. reflexivity. Qed.
Lemma emitted_set_pyodide p r : emitted (set_pyodide p r) = emitted r.
Proof. reflexivity. Qed.
Lemma evaluated_set_pyodide p r : evaluated (set_pyodide p r) = evaluated r.
Proof. reflexivity. Qed.

Create Rewrite HintDb runner.

#[export] Hint Rewrite
  pyodide_set_isRunning isLoading_set_isRunning isRunning_set_isRunning
  emitted_set_isRunning evaluated_set_isRunning
  pyodide_set_isLoading isLoading_set_isLoading isRunning_set_isLoading
  emitted_set_isLoading evaluated_set_isLoading
  pyodide_set_pyodide isLoading_set_pyodide isRunning_set_pyodide
  emitted_set_pyodide evaluated_set_pyodide : runner.

#[export] Hint Rewrite
  pyodide_appendOutput isLoading_appendOutput isRunning_appendOutput
  emitted_appendOutput evaluated_appendOutput
  pyodide_set_page isLoading_set_page isRunning_set_page
  emitted_set_page evaluated_set_page : runner.

(** Unfold the page operations down to [set_page] and [appendOutput], then
    push the field projections through. *)
Ltac fields :=
  unfold run_finally, on_runtime_error, init_catch, init_begin,
    updateRunButton, showLoading, hideLoadingOverlay, updateStatus in *;
  autorewrite with runner in *;
  cbn [pyodide isLoading isRunning emitted evaluated page] in *.

Lemma runPython_null {A : Type} (script : Interp -> Completion A * Interp)
    (r : PythonRunner) :
  pyodide r = None -> runPython script r = (Thrown null_TypeError, r).
Proof. intros H. unfold runPython. rewrite H. reflexivity. Qed.

Lemma runPython_some {A : Type} (script : Interp -> Completion A * Interp)
    (r : PythonRunner) (py : Interp) :
  pyodide r = Some py ->
  runPython script r = (fst (script py), set_pyodide (Some (snd (script py))) r).
Proof.
  intros H. unfold runPython. rewrite H. destruct (script py); reflexivity.
Qed.

(** [runPython] touches nothing but the interpreter. *)
Lemma runPython_frame {A : Type} (script : Interp -> Completion A * Interp)
    (r : PythonRunner) :
  let r' := snd (runPython script r) in
  isLoading r' = isLoading r /\ isRunning r' = isRunning r /\
  emitted r' = emitted r /\ evaluated r' = evaluated r /\ page r' = page r /\
  (pyodide r = None -> pyodide r' = None).
Proof.
  unfold runPython. destruct (pyodide r) as [py|] eqn:Hp.
  - destruct (script py); simpl. repeat split; congruence.
  - simpl. repeat split; auto.
Qed.

(** The log keeps at most [maxLines] children when lines are appended one
    at a time. *)
Lemma appendOutput_bounded (c : string) (t : LineType) (r : PythonRunner) :
  length (outputElement (page r)) <= maxLines ->
  length (outputElement (page (appendOutput c t r))) <= maxLines.
Proof.
  intros H. unfold appendOutput. cbn [page outputElement].
  set (children := outputElement (page r) ++ [mkLine c t]).
  assert (Hlen : length children = S (length (outputElement (page r)))).
  { unfold children. rewrite length_app. simpl. lia. }
  destruct (Nat.eq_dec (length (outputElement (page r))) maxLines) as [E|E].
  - rewrite Hlen. cbn [drop_excess].
    assert (H1 : (0 <? length children - maxLines)%nat = true)
      by (apply Nat.ltb_lt; lia).
    rewrite H1.
    assert (Ht : length (tail children) = maxLines).
    { destruct children; simpl in *; lia. }
    destruct (length (outputElement (page r))) as [|n]; cbn [drop_excess]; [lia|].
    assert (H2 : (1 <? length (tail children) - maxLines)%nat = false)
      by (apply Nat.ltb_ge; lia).
    rewrite H2. lia.
  - rewrite Hlen. cbn [drop_excess].
    assert (H1 : (0 <? length children - maxLines)%nat = false)
      by (apply Nat.ltb_ge; lia).
    rewrite H1. lia.
Qed.

(** *** The running flag along a call *)

Lemma isRunning_run_finally r : isRunning (run_finally r) = false.
Proof. reflexivity. Qed.

Lemma isRunning_runCode_resume res r : isRunning (runCode_resume res r) = false.
Proof. unfold runCode_resume. apply isRunning_run_finally. Qed.

Lemma isRunning_init_resume o r : isRunning (init_resume o r) = isRunning r.
Proof.
  unfold init_resume, setupPythonEnvironment. destruct o as [|e]; [|reflexivity].
  pose proof (runPython_frame setup_script (set_pyodide (Some fresh) r)) as H.
  destruct (runPython setup_script (set_pyodide (Some fresh) r)) as [[u|e] r1];
    simpl in H; fields; tauto.
Qed.

(** The three ways [runCode_enter] can end, and the flag after each. *)
Lemma runCode_enter_flag (text : string) (r : PythonRunner) :
  match runCode_enter text r with
  | (Refused, r') => isRunning r' = isRunning r
  | (Aborted, r') => isRunning r = false /\ isRunning r' = false
  | (Evaluating code, r') =>
      isRunning r = false /\ isLoading r = false /\
      isRunning r' = true /\ code = trim text /\ truthy code = true
  end.
Proof.
  unfold runCode_enter.
  destruct (isLoading r) eqn:HL; [reflexivity|].
  destruct (isRunning r) eqn:HR; [fields; exact HR|].
  destruct (truthy (trim text)) eqn:HT; simpl; [|fields; exact HR].
  set (r2 := appendOutput _ system _).
  pose proof (runPython_frame reset r2) as H3.
  destruct (runPython reset r2) as [[u|e] r3]; simpl in H3; [|auto].
  pose proof (runPython_frame start_capture r3) as H4.
  destruct (runPython start_capture r3) as [[u'|e] r4]; simpl in H4; [|auto].
  repeat split; auto.
  destruct H4 as (_ & -> & _). destruct H3 as (_ & -> & _). reflexivity.
Qed.

Section WorldInvariant.

Variable python : string -> Interp -> Completion Value * Interp.

Lemma flag_counts_act (a : Action) (w w' : World) :
  flag_counts w -> act python a w = Some w' -> flag_counts w'.
Proof.
  unfold flag_counts. intros Hw Ha. destruct a as [text| |o]; simpl in Ha.
  - pose proof (runCode_enter_flag text (runner w)) as He.
    destruct (runCode_enter text (runner w)) as [[| |code] r'];
      injection Ha as <-; simpl.
    + rewrite He. exact Hw.
    + destruct He as [H0 ->]. rewrite H0 in Hw. exact Hw.
    + destruct He as (H0 & _ & -> & _). rewrite H0 in Hw. rewrite Hw. reflexivity.
  - destruct (in_flight w) as [|code rest] eqn:Hf; [discriminate|].
    destruct (evaluate python code (runner w)) as [res r'].
    injection Ha as <-. cbn [runner in_flight]. rewrite isRunning_runCode_resume.
    simpl in Hw. destruct (isRunning (runner w)); [lia | discriminate].
  - destruct (isLoading (runner w)); [|discriminate].
    injection Ha as <-. cbn [runner in_flight]. rewrite isRunning_init_resume. exact Hw.
Qed.

Lemma flag_counts_run (acts : list Action) (w w' : World) :
  flag_counts w -> run_actions python acts w = Some w' -> flag_counts w'.
Proof.
  revert w. induction acts as [|a acts IH]; simpl; intros w Hw Hr.
  - injection Hr as <-. exact Hw.
  - destruct (act python a w) as [w1|] eqn:Ha; [|discriminate].
    apply (IH w1); [eapply flag_counts_act; eauto | exact Hr].
Qed.

Lemma flag_counts_boot (p : Page) : flag_counts (boot p).
Proof. reflexivity. Qed.

End WorldInvariant.

(** *** Entering and leaving an accepted run *)

Lemma begin_capture_returns (py : Interp) :
  output_capture py <> None ->
  exists py1, begin_capture py = (Returned tt, py1) /\
    output_capture py1 =
      Some (mkCapture (length (stringios py)) (S (length (stringios py)))
                      (sys_stdout py) (sys_stderr py)) /\
    stringios py1 = stringios py ++ [""; ""] /\
    sys_stdout py1 = StringIO (length (stringios py)) /\
    sys_stderr py1 = StringIO (S (length (stringios py))).
Proof.
  intros Hc. unfold begin_capture, reset.
  destruct (output_capture py); [|congruence].
  eexists. split; [reflexivity|]. repeat split.
Qed.

Lemma runCode_enter_evaluating (text code : string) (r r1 : PythonRunner) :
  runCode_enter text r = (Evaluating code, r1) ->
  isLoading r = false /\ isRunning r = false /\
  code = trim text /\ truthy code = true /\
  exists py py1,
    pyodide r = Some py /\ begin_capture py = (Returned tt, py1) /\
    r1 = set_pyodide (Some py1) (announced r).
Proof.
  unfold runCode_enter.
  destruct (isLoading r) eqn:HL; [discriminate|].
  destruct (isRunning r) eqn:HR; [discriminate|].
  destruct (truthy (trim text)) eqn:HT; [|discriminate]. cbn [negb].
  fold (announced r). unfold runPython.
  assert (Hp : pyodide (announced r) = pyodide r) by reflexivity.
  rewrite Hp. destruct (pyodide r) as [py|]; [|discriminate].
  destruct (reset py) as [[[]|e] py'] eqn:Hreset; [|discriminate].
  cbn [pyodide set_pyodide].
  destruct (start_capture py') as [[[]|e] py1] eqn:Hstart; [|discriminate].
  intros H. injection H as <- <-.
  repeat split; auto. exists py, py1.
  unfold begin_capture. rewrite Hreset, Hstart. repeat split.
Qed.

Lemma evaluate_some python (code : string) (r : PythonRunner) (py : Interp) :
  pyodide r = Some py ->
  evaluate python code r =
    (fst (python code py),
     mkRunner (Some (snd (python code py))) (isLoading r) (isRunning r) (page r)
              (emitted r) (evaluated r ++ [code])).
Proof.
  intros Hp. unfold evaluate, runPython. rewrite Hp.
  destruct (python code py); reflexivity.
Qed.

Lemma on_python_error_fields (e : Error) (r : PythonRunner) :
  pyodide (on_python_error e r) =
    match pyodide r with
    | Some py => Some (snd (stop_capture py))
    | None => None
    end /\
  isLoading (on_python_error e r) = isLoading r /\
  emitted (on_python_error e r) = emitted r ++ [mkLine (formatPythonError e) stderr] /\
  evaluated (on_python_error e r) = evaluated r.
Proof.
  unfold on_python_error, runPython. fields.
  destruct (pyodide r) as [py|] eqn:Hp.
  - destruct (stop_capture py). repeat split.
  - simpl. rewrite Hp. repeat split.
Qed.

(** C3. When the evaluation of an accepted run throws, stop_capture is
    still run on the interpreter (its own failure, if any, changes nothing
    in what is emitted), the error is shown as one stderr line holding the
    formatted error (the text as it is when it contains "Traceback", else
    prefixed with "Error: "), the line ">>> Execution complete." follows,
    and the runner goes from running back to ready. *)
Theorem run_recovers_from_python_error
    (python : string -> Interp -> Completion Value * Interp)
    (text code : string) (r r1 r2 : PythonRunner) (e : Error) :
  runCode_enter text r = (Evaluating code, r1) ->
  evaluate python code r1 = (Thrown e, r2) ->
  (exists py2, pyodide r2 = Some py2 /\
     pyodide (runCode python text r) = Some (snd (stop_capture py2))) /\
  emitted (runCode python text r) =
    emitted r ++ [mkLine ">>> Running Python code..." system;
                  mkLine (formatPythonError e) stderr;
                  mkLine ">>> Execution complete." system] /\
  formatPythonError e =
    (if includes "Traceback" (toString e) then toString e
     else ("Error: " ++ toString e)%string) /\
  phase r = Ready /\ phase r1 = Running /\ phase (runCode python text r) = Ready.
Proof.
  intros Henter Heval.
  destruct (runCode_enter_evaluating text code r r1 Henter)
    as (HL & HR & Hcode & Htruthy & py & py1 & Hp & Hbegin & ->).
  rewrite (evaluate_some python code (set_pyodide (Some py1) (announced r)) py1 eq_refl) in Heval.
  injection Heval as Hres <-.
  unfold runCode. rewrite Henter.
  rewrite (evaluate_some python code (set_pyodide (Some py1) (announced r)) py1 eq_refl), Hres.
  unfold runCode_resume.
  set (r2 := mkRunner _ _ _ _ _ _).
  destruct (on_python_error_fields e r2) as (Hpy & HL2 & Hem & Hev).
  split.
  { exists (snd (python code py1)). split; [reflexivity|].
    fields. rewrite Hpy. reflexivity. }
  split.
  { fields. rewrite Hem. subst r2. cbn [emitted]. unfold announced. fields.
    rewrite <- !app_assoc. reflexivity. }
  split; [reflexivity|].
  unfold phase. fields. rewrite HL2, Hpy. subst r2. cbn [isLoading pyodide].
  unfold announced. fields. rewrite HL, HR, Hp. repeat split.
Qed.

Lemma run_recovers_from_python_error_witness :
  emitted (runCode sample_python "1/0" ready_runner) =
    emitted ready_runner ++
      [mkLine ">>> Running Python code..." system;
       mkLine (formatPythonError ZeroDivisionError) stderr;
       mkLine ">>> Execution complete." system] /\
  phase (runCode sample_python "1/0" ready_runner) = Ready.
Proof.
  pose proof (run_recovers_from_python_error sample_python "1/0" "1/0" ready_runner
                (snd (runCode_enter "1/0" ready_runner))
                (snd (evaluate sample_python "1/0"
                        (snd (runCode_enter "1/0" ready_runner))))
                ZeroDivisionError eq_refl eq_refl) as H.
  split; [apply H | apply H].
Defined.

(** *** Requests while loading or running *)

Lemma runCode_enter_refused (text : string) (r : PythonRunner) :
  isLoading r || isRunning r = true ->
  runCode_enter text r =
    (Refused,
     appendOutput
       (if isLoading r then "Python environment is still loading. Please wait..."
        else "Code is already running. Please wait...") system r).
Proof.
  unfold runCode_enter. destruct (isLoading r); [reflexivity|].
  destruct (isRunning r); [reflexivity | discriminate].
Qed.

Lemma iter_appendOutput_fields (n : nat) (c : string) (t : LineType) (r : PythonRunner) :
  let r' := Nat.iter n (appendOutput c t) r in
  pyodide r' = pyodide r /\ isLoading r' = isLoading r /\
  isRunning r' = isRunning r /\ evaluated r' = evaluated r /\
  emitted r' = emitted r ++ repeat (mkLine c t) n.
Proof.
  induction n as [|n IH].
  - simpl. rewrite app_nil_r. repeat split.
  - cbv zeta in IH. destruct IH as (H1 & H2 & H3 & H4 & H5).
    cbv zeta. rewrite Nat.iter_succ. fields. rewrite H5, <- app_assoc, <- repeat_cons. cbn [repeat].
    repeat split; assumption.
Qed.

Lemma run_all_refused
    (python : string -> Interp -> Completion Value * Interp)
    (texts : list string) (r : PythonRunner) :
  isLoading r || isRunning r = true ->
  run_all python texts r =
    Nat.iter (length texts)
      (appendOutput
         (if isLoading r then "Python environment is still loading. Please wait..."
          else "Code is already running. Please wait...") system) r.
Proof.
  intros Hr. unfold run_all.
  set (notice := if isLoading r then _ else _).
  assert (G : forall r0, isLoading r0 = isLoading r -> isRunning r0 = isRunning r ->
            fold_left (fun r' text => runCode python text r') texts r0 =
            Nat.iter (length texts) (appendOutput notice system) r0).
  { induction texts as [|t ts IH]; intros r0 HL HR; [reflexivity|].
    cbn [fold_left length]. rewrite Nat.iter_succ_r.
    unfold runCode at 2.
    rewrite runCode_enter_refused by (rewrite HL, HR; exact Hr).
    rewrite HL. apply IH; fields; assumption. }
  apply G; reflexivity.
Qed.

(** C1. A call of run() while the runner is loading emits the single system
    line "Python environment is still loading. Please wait..." and returns;
    while it is running (and no longer loading) it emits the single system
    line "Code is already running. Please wait..." and returns; in both
    cases nothing else in the runner changes and nothing is executed. Hence
    any sequence of calls issued in that state is refused call by call, and
    in every world reachable from the construction of the runner at most one
    call is inside the evaluation of user code, every request made meanwhile
    being refused with one system line: the call that was let through raised
    the flag, and all the calls that follow it while the flag is up are
    refused. *)
Theorem run_refused_while_loading_or_running
    (python : string -> Interp -> Completion Value * Interp)
    (r : PythonRunner) (texts : list string)
    (p : Page) (acts : list Action) (w : World) :
  isLoading r || isRunning r = true ->
  run_actions python acts (boot p) = Some w ->
  let notice :=
    if isLoading r then "Python environment is still loading. Please wait..."
    else "Code is already running. Please wait..." in
  (forall text, runCode python text r = appendOutput notice system r) /\
  run_all python texts r = Nat.iter (length texts) (appendOutput notice system) r /\
  (pyodide (run_all python texts r) = pyodide r /\
   isLoading (run_all python texts r) = isLoading r /\
   isRunning (run_all python texts r) = isRunning r /\
   evaluated (run_all python texts r) = evaluated r /\
   emitted (run_all python texts r) =
     emitted r ++ repeat (mkLine notice system) (length texts)) /\
  length (in_flight w) <= 1 /\
  (in_flight w <> [] ->
   forall text, exists r',
     act python (Request text) w = Some (mkWorld r' (in_flight w)) /\
     rejected (runner w) r') /\
  (forall r0 text0 code r1 later,
     runCode_enter text0 r0 = (Evaluating code, r1) ->
     isRunning r0 = false /\ isRunning r1 = true /\
     run_all python later r1 =
       Nat.iter (length later)
         (appendOutput "Code is already running. Please wait..." system) r1).
Proof.
  intros Hr Hw notice.
  assert (Hone : forall r0 text,
             isLoading r0 = isLoading r -> isRunning r0 = isRunning r ->
             runCode python text r0 = appendOutput notice system r0).
  { intros r0 text HL HR. unfold runCode.
    rewrite runCode_enter_refused by (rewrite HL, HR; exact Hr).
    rewrite HL. reflexivity. }
  assert (Hall : run_all python texts r =
                 Nat.iter (length texts) (appendOutput notice system) r)
    by (apply run_all_refused; exact Hr).
  split; [intros text; apply Hone; reflexivity|].
  split; [exact Hall|].
  split.
  { rewrite Hall.
    destruct (iter_appendOutput_fields (length texts) notice system r)
      as (H1 & H2 & H3 & H4 & H5).
    repeat split; assumption. }
  pose proof (flag_counts_run python acts (boot p) w (flag_counts_boot p) Hw) as Hc.
  unfold flag_counts in Hc.
  split.
  { rewrite Hc. destruct (isRunning (runner w)); lia. }
  split.
  { intros Hne text.
    assert (HR : isRunning (runner w) = true).
    { destruct (isRunning (runner w)); [reflexivity|].
      destruct (in_flight w); [congruence | discriminate]. }
    cbn [act]. rewrite runCode_enter_refused by (rewrite HR; apply orb_true_r).
    eexists. split; [reflexivity|]. eexists. reflexivity. }
  intros r0 text0 code r1 later He.
  pose proof (runCode_enter_flag text0 r0) as Hf. rewrite He in Hf.
  destruct Hf as (H0 & HL0 & H1 & _).
  destruct (runCode_enter_evaluating text0 code r0 r1 He)
    as (_ & _ & _ & _ & py & py1 & _ & _ & Hr1).
  assert (HL1 : isLoading r1 = false) by (rewrite Hr1; unfold announced; fields; exact HL0).
  split; [exact H0|]. split; [exact H1|].
  rewrite run_all_refused by (rewrite H1; apply orb_true_r).
  rewrite HL1. reflexivity.
Qed.

Lemma run_refused_while_loading_or_running_witness :
  isLoading running_runner || isRunning running_runner = true /\
  run_actions sample_python
    [LoadSettled Loaded; Request "1/0"; Request "1+1"; Resume;
     Request "print('hi')"; Request "x=1"]
    (boot empty_page) = Some sample_world /\
  runCode sample_python "print('hi')" running_runner =
    appendOutput "Code is already running. Please wait..." system running_runner /\
  length (in_flight sample_world) <= 1.
Proof.
  pose proof (run_refused_while_loading_or_running sample_python running_runner
                ["print('hi')"; "x=1"] empty_page
                [LoadSettled Loaded; Request "1/0"; Request "1+1"; Resume;
                 Request "print('hi')"; Request "x=1"]
                sample_world eq_refl eq_refl) as H.
  split; [reflexivity|]. split; [reflexivity|].
  split; [apply (proj1 H) | apply H].
Defined.

(** *** Blank source *)

(** C10. With an editor text that is empty or all whitespace, a call of
    run() that passes the loading and running guards emits the single
    system line "No code to execute." and returns: the running flag is not
    raised, the interpreter and the capture are not touched and nothing is
    evaluated. In any state such a call is refused with one system line.
    A call that reaches the interpreter carries the trimmed text, which is
    not empty. *)
Theorem run_blank_source
    (python : string -> Interp -> Completion Value * Interp)
    (r : PythonRunner) (text : string) :
  all_whitespace text = true ->
  trim text = EmptyString /\
  rejected r (runCode python text r) /\
  fst (runCode_enter text r) = Refused /\
  (isLoading r = false -> isRunning r = false ->
   runCode python text r = appendOutput "No code to execute." system r /\
   isRunning (runCode python text r) = false /\
   pyodide (runCode python text r) = pyodide r /\
   evaluated (runCode python text r) = evaluated r /\
   emitted (runCode python text r) =
     emitted r ++ [mkLine "No code to execute." system]) /\
  (forall text' code r',
     runCode_enter text' r = (Evaluating code, r') ->
     code = trim text' /\ code <> EmptyString /\ all_whitespace text' = false).
Proof.
  intros Hblank.
  assert (Ht : truthy (trim text) = false) by (rewrite truthy_trim, Hblank; reflexivity).
  assert (Henter : exists notice,
             runCode_enter text r = (Refused, appendOutput notice system r)).
  { unfold runCode_enter. rewrite Ht.
    destruct (isLoading r); [eexists; reflexivity|].
    destruct (isRunning r); eexists; reflexivity. }
  split; [apply truthy_false, Ht|].
  split.
  { destruct Henter as [notice He]. exists notice. unfold runCode. rewrite He. reflexivity. }
  split.
  { destruct Henter as [notice He]. rewrite He. reflexivity. }
  split.
  { intros HL HR.
    assert (Hrun : runCode python text r = appendOutput "No code to execute." system r).
    { unfold runCode, runCode_enter. rewrite HL, HR, Ht. reflexivity. }
    rewrite Hrun. fields. repeat split. exact HR. }
  intros text' code r' He.
  destruct (runCode_enter_evaluating text' code r r' He) as (_ & _ & Hc & Htr & _).
  split; [exact Hc|]. split.
  - intros ->. discriminate.
  - subst code. rewrite truthy_trim in Htr.
    destruct (all_whitespace text'); [discriminate | reflexivity].
Qed.

Lemma run_blank_source_witness :
  all_whitespace ("  " ++ newline) = true /\
  runCode sample_python ("  " ++ newline) ready_runner =
    appendOutput "No code to execute." system ready_runner.
Proof.
  split; [reflexivity|].
  apply (run_blank_source sample_python ready_runner ("  " ++ newline)%string eq_refl);
    reflexivity.
Defined.

(** *** The readiness query *)

(** C8. isReady() only reads the runner; it is true exactly when the runner
    is no longer loading and holds an interpreter, that is, exactly when the
    state is none of Uninitialized, Loading and Failed (so Ready or Running).
    A new runner is Loading, and becomes Ready or Failed when the load
    settles. *)
Theorem isReady_iff (r : PythonRunner) (p : Page) (e : Error) :
  (isReady r = true <-> isLoading r = false /\ pyodide r <> None) /\
  (isReady r = true <->
     phase r <> Uninitialized /\ phase r <> Loading /\ phase r <> Failed) /\
  (isReady r = true <-> phase r = Ready \/ phase r = Running) /\
  phase (constructor p) = Loading /\
  phase (init_resume Loaded (constructor p)) = Ready /\
  phase (init_resume (LoadFailed e) (constructor p)) = Failed.
Proof.
  unfold isReady, phase.
  split; [|split; [|split]].
  - destruct (isLoading r), (pyodide r); simpl; split; intros H;
      try discriminate; try reflexivity; try (split; congruence);
      destruct H; congruence.
  - destruct (isLoading r), (pyodide r), (isRunning r); simpl; split; intros H;
      try discriminate; try reflexivity; try (repeat split; discriminate);
      destruct H as (H1 & H2 & H3); congruence.
  - destruct (isLoading r), (pyodide r), (isRunning r); simpl; split; intros H;
      try discriminate; try reflexivity; auto; destruct H; discriminate.
  - repeat split.
Qed.

(** *** The capture inside the interpreter *)

Lemma stop_capture_again (py py1 : Interp) (v : string * string) :
  stop_capture py = (Returned v, py1) -> stop_capture py1 = (Returned v, py1).
Proof.
  unfold stop_capture. destruct (output_capture py) as [c|] eqn:Hc; [|discriminate].
  destruct (stringios py !! self_stdout c) as [a|] eqn:Ha;
    [destruct (stringios py !! self_stderr c) as [b|] eqn:Hb|]; try discriminate.
  intros H. injection H as <- <-. cbn [set_streams output_capture stringios].
  rewrite Hc, Ha, Hb. reflexivity.
Qed.

Lemma stop_script_is_stop_capture (py : Interp) : stop_script py = stop_capture py.
Proof.
  unfold stop_script. destruct (stop_capture py) as [[v|e] py1] eqn:H; [|reflexivity].
  apply (stop_capture_again py py1 v H).
Qed.

(** C9. Once stop_capture has returned, calling it again right away returns
    the same two texts and leaves the interpreter as the first call left it,
    with [sys.stdout] and [sys.stderr] bound to the recorded originals; so
    the script of the success path, which calls it twice, gives what a
    single call gives. *)
Theorem stop_capture_idempotent (py py1 : Interp) (out err : string) :
  stop_capture py = (Returned (out, err), py1) ->
  stop_capture py1 = (Returned (out, err), py1) /\
  stop_script py = stop_capture py /\
  stop_script py = (Returned (out, err), py1) /\
  exists c, output_capture py1 = Some c /\
    sys_stdout py1 = original_stdout c /\ sys_stderr py1 = original_stderr c.
Proof.
  intros H.
  split; [exact (stop_capture_again py py1 (out, err) H)|].
  split; [apply stop_script_is_stop_capture|].
  split; [rewrite stop_script_is_stop_capture; exact H|].
  unfold stop_capture in H. destruct (output_capture py) as [c|] eqn:Hc; [|discriminate].
  destruct (stringios py !! self_stdout c); [|discriminate].
  destruct (stringios py !! self_stderr c); [|discriminate].
  injection H as _ _ <-. exists c. repeat split. exact Hc.
Qed.

Lemma stop_capture_idempotent_witness :
  stop_capture capturing_interp =
    (Returned (("hi" ++ newline)%string, "warn"), snd (stop_capture capturing_interp)) /\
  stop_capture (snd (stop_capture capturing_interp)) =
    (Returned (("hi" ++ newline)%string, "warn"), snd (stop_capture capturing_interp)) /\
  stop_script capturing_interp = stop_capture capturing_interp.
Proof.
  pose proof (stop_capture_idempotent capturing_interp
                (snd (stop_capture capturing_interp))
                ("hi" ++ newline)%string "warn" eq_refl) as H.
  split; [reflexivity|]. split; [apply H | apply H].
Defined.

(** C7, as stated, fails: when begin() runs while the streams are still
    redirected by an earlier begin(), the matching end() binds [sys.stdout]
    and [sys.stderr] to the buffers of the earlier capture, not to the
    interpreter's own streams. *)
Lemma begin_after_unpaired_begin_keeps_redirection :
  sys_stdout (snd (setup_script fresh)) = TtyOut /\
  sys_stderr (snd (setup_script fresh)) = TtyErr /\
  fst (begin_capture abandoned_interp) = Returned tt /\
  fst (stop_capture (snd (begin_capture abandoned_interp))) = Returned ("", "") /\
  sys_stdout (snd (stop_capture (snd (begin_capture abandoned_interp)))) = StringIO 2 /\
  sys_stderr (snd (stop_capture (snd (begin_capture abandoned_interp)))) = StringIO 3 /\
  ~ (sys_stdout (snd (stop_capture (snd (begin_capture abandoned_interp)))) = TtyOut /\
     sys_stderr (snd (stop_capture (snd (begin_capture abandoned_interp)))) = TtyErr).
Proof.
  repeat split; try reflexivity. intros [H _]. discriminate H.
Qed.

Lemma lookup_two_new (l : list string) (a b : string) :
  (l ++ [a; b]) !! length l = Some a /\ (l ++ [a; b]) !! S (length l) = Some b.
Proof.
  split.
  - apply list_lookup_middle. reflexivity.
  - change (l ++ [a; b]) with (l ++ [a] ++ [b]). rewrite app_assoc.
    apply list_lookup_middle. rewrite length_app. simpl. lia.
Qed.

(** C7, amended. begin() returns whenever the global capture exists,
    whether or not an earlier begin() was ever matched by an end(); the end()
    that follows returns the two (empty) buffers and binds [sys.stdout] and
    [sys.stderr] to what they were bound to when begin() ran. They are the
    interpreter's own streams again if they were at that moment. *)
Theorem begin_end_restores_streams_of_begin (py : Interp) :
  output_capture py <> None ->
  exists py1 py2,
    begin_capture py = (Returned tt, py1) /\
    stop_capture py1 = (Returned ("", ""), py2) /\
    sys_stdout py2 = sys_stdout py /\ sys_stderr py2 = sys_stderr py /\
    (sys_stdout py = TtyOut -> sys_stderr py = TtyErr ->
     sys_stdout py2 = TtyOut /\ sys_stderr py2 = TtyErr).
Proof.
  intros Hc.
  destruct (begin_capture_returns py Hc) as (py1 & Hb & Hcap & Hios & _ & _).
  exists py1. unfold stop_capture. rewrite Hcap, Hios.
  cbn [self_stdout self_stderr original_stdout original_stderr].
  destruct (lookup_two_new (stringios py) "" "") as [-> ->].
  eexists. split; [exact Hb|]. split; [reflexivity|].
  cbn [set_streams sys_stdout sys_stderr]. repeat split; assumption.
Qed.

Lemma begin_end_restores_streams_of_begin_witness :
  output_capture (snd (setup_script fresh)) <> None /\
  exists py1 py2,
    begin_capture (snd (setup_script fresh)) = (Returned tt, py1) /\
    stop_capture py1 = (Returned ("", ""), py2) /\
    sys_stdout py2 = TtyOut /\ sys_stderr py2 = TtyErr.
Proof.
  split; [discriminate|].
  destruct (begin_end_restores_streams_of_begin (snd (setup_script fresh)))
    as (py1 & py2 & H1 & H2 & H3 & H4 & _); [discriminate|].
  exists py1, py2. repeat split; assumption.
Defined.

(** *** Initialisation *)

Lemma init_resume_fields (o : LoadOutcome) (r : PythonRunner) :
  emitted (init_resume o r) = emitted r ++ init_lines o /\
  isLoading (init_resume o r) = false /\
  isRunning (init_resume o r) = isRunning r /\
  evaluated (init_resume o r) = evaluated r /\
  pyodide (init_resume o r) =
    match o with
    | Loaded => Some (reset_body fresh)
    | LoadFailed _ => pyodide r
    end.
Proof.
  destruct o as [|e]; cbn -[appendOutput]; fields.
  - rewrite <- app_assoc. repeat split.
  - repeat split.
Qed.

(** C4, as stated, fails: [init] has no guard. Called a second time right
    after the constructor's call, it starts a second load, and when the two
    loads settle the two system lines are emitted twice; called on a ready
    runner it changes the status text and shows the loading indicator. *)
Lemma init_twice_emits_twice :
  emitted (init_resume Loaded (init_resume Loaded (init_begin (constructor empty_page)))) =
    [mkLine "Python environment initialized successfully!" system;
     mkLine "You can now run Python code." system;
     mkLine "Python environment initialized successfully!" system;
     mkLine "You can now run Python code." system] /\
  emitted (init_resume Loaded (constructor empty_page)) =
    [mkLine "Python environment initialized successfully!" system;
     mkLine "You can now run Python code." system] /\
  init_resume Loaded (init_resume Loaded (init_begin (constructor empty_page))) <>
    init_resume Loaded (constructor empty_page) /\
  init_begin ready_runner <> ready_runner.
Proof.
  split; [reflexivity|]. split; [reflexivity|].
  split; intros H.
  - apply (f_equal (fun r => length (emitted r))) in H. vm_compute in H. discriminate H.
  - apply (f_equal (fun r => statusElement (page r))) in H. vm_compute in H. discriminate H.
Qed.

(** C4, amended. [init] is called once, by the constructor, and that call
    alone makes exactly one transition out of Loading: to Ready with the two
    system lines when the load succeeds, to Failed with one error line when
    it fails; once it has settled no load is pending. [init] itself has no
    guard: whatever the runner's state, a call emits its own lines when its
    load settles. *)
Theorem init_once_by_constructor
    (python : string -> Interp -> Completion Value * Interp)
    (p : Page) (o o' : LoadOutcome) (r : PythonRunner) :
  phase (constructor p) = Loading /\
  emitted (constructor p) = [] /\
  emitted (init_resume o (constructor p)) = init_lines o /\
  phase (init_resume o (constructor p)) =
    match o with Loaded => Ready | LoadFailed _ => Failed end /\
  act python (LoadSettled o) (boot p) = Some (mkWorld (init_resume o (constructor p)) []) /\
  act python (LoadSettled o') (mkWorld (init_resume o (constructor p)) []) = None /\
  emitted (init_resume o (init_begin r)) = emitted r ++ init_lines o.
Proof.
  destruct (init_resume_fields o (constructor p)) as (He & HL & HR & _ & Hp).
  destruct (init_resume_fields o (init_begin r)) as (He' & _).
  split; [reflexivity|]. split; [reflexivity|].
  split; [rewrite He; reflexivity|].
  split.
  { unfold phase. rewrite HL, Hp, HR. destruct o; reflexivity. }
  split; [reflexivity|].
  split.
  { cbn [act runner]. rewrite HL. reflexivity. }
  rewrite He'. reflexivity.
Qed.

(** *** After a failed load *)

Lemma runCode_without_interpreter
    (python : string -> Interp -> Completion Value * Interp)
    (text : string) (r : PythonRunner) :
  isLoading r = false -> pyodide r = None ->
  runCode python text r =
    if isRunning r then appendOutput "Code is already running. Please wait..." system r
    else if truthy (trim text) then
      run_finally (on_runtime_error null_TypeError (announced r))
    else appendOutput "No code to execute." system r.
Proof.
  intros HL Hp. unfold runCode, runCode_enter. rewrite HL.
  destruct (isRunning r); [reflexivity|].
  destruct (truthy (trim text)); [|reflexivity]. cbn [negb].
  fold (announced r). rewrite runPython_null by exact Hp. reflexivity.
Qed.

Lemma runCode_failed_stays_failed
    (python : string -> Interp -> Completion Value * Interp)
    (text : string) (r : PythonRunner) :
  phase r = Failed ->
  phase (runCode python text r) = Failed /\
  evaluated (runCode python text r) = evaluated r.
Proof.
  unfold phase. destruct (isLoading r) eqn:HL; [discriminate|].
  destruct (pyodide r) as [py|] eqn:Hp; [destruct (isRunning r); discriminate|].
  intros _. rewrite (runCode_without_interpreter python text r HL Hp).
  destruct (isRunning r); [|destruct (truthy (trim text))];
    unfold announced; fields; rewrite HL, Hp; split; reflexivity.
Qed.

(** C5, as stated, fails: after a failed load a request with code to run is
    not rejected. It passes the guards, the start line is emitted, the run
    breaks on the missing interpreter with a "Runtime Error:" line, and the
    completion line follows. *)
Lemma run_after_failed_load_not_rejected :
  phase failed_runner = Failed /\
  emitted (runCode sample_python "print('hi')" failed_runner) =
    emitted failed_runner ++
      [mkLine ">>> Running Python code..." system;
       mkLine "Runtime Error: Cannot read properties of null (reading 'runPython')" stderr;
       mkLine ">>> Execution complete." system] /\
  ~ rejected failed_runner (runCode sample_python "print('hi')" failed_runner).
Proof.
  split; [reflexivity|]. split; [reflexivity|].
  intros [notice H].
  apply (f_equal (fun r => length (emitted r))) in H.
  rewrite emitted_appendOutput, length_app in H. vm_compute in H. discriminate H.
Qed.

(** C5, amended. A load failure is shown as one stderr line
    "Error initializing Python: ..." and leaves the runner Failed. From then
    on no call of run() evaluates any user code and the runner stays Failed,
    for any sequence of requests; but such a call is not turned away by a
    guard: with code to run (and the running flag down) it emits the start
    line, one "Runtime Error:" stderr line and the completion line. *)
Theorem failed_load_is_terminal
    (python : string -> Interp -> Completion Value * Interp)
    (r : PythonRunner) (texts : list string) (text : string)
    (p : Page) (e : Error) :
  phase r = Failed ->
  phase (init_resume (LoadFailed e) (constructor p)) = Failed /\
  emitted (init_resume (LoadFailed e) (constructor p)) =
    [mkLine ("Error initializing Python: " ++ message e)%string stderr] /\
  phase (run_all python texts r) = Failed /\
  evaluated (run_all python texts r) = evaluated r /\
  (isRunning r = false -> truthy (trim text) = true ->
   emitted (runCode python text r) =
     emitted r ++
       [mkLine ">>> Running Python code..." system;
        mkLine ("Runtime Error: " ++ message null_TypeError)%string stderr;
        mkLine ">>> Execution complete." system]).
Proof.
  intros Hf.
  split; [reflexivity|]. split; [reflexivity|].
  assert (G : forall r0, phase r0 = Failed ->
            phase (run_all python texts r0) = Failed /\
            evaluated (run_all python texts r0) = evaluated r0).
  { unfold run_all. induction texts as [|t ts IH]; intros r0 H0; [split; [exact H0 | reflexivity]|].
    cbn [fold_left].
    destruct (runCode_failed_stays_failed python t r0 H0) as [H1 H2].
    destruct (IH _ H1) as [H3 H4]. split; [exact H3 | congruence]. }
  destruct (G r Hf) as [G1 G2].
  split; [exact G1|]. split; [exact G2|].
  intros HR Ht. unfold phase in Hf.
  destruct (isLoading r) eqn:HL; [discriminate|].
  destruct (pyodide r) as [py|] eqn:Hp; [destruct (isRunning r); discriminate|].
  rewrite (runCode_without_interpreter python text r HL Hp), HR, Ht.
  unfold announced. fields. rewrite <- !app_assoc. reflexivity.
Qed.

Lemma failed_load_is_terminal_witness :
  phase failed_runner = Failed /\
  phase (run_all sample_python ["print('hi')"; "1/0"] failed_runner) = Failed /\
  evaluated (run_all sample_python ["print('hi')"; "1/0"] failed_runner) = [].
Proof.
  pose proof (failed_load_is_terminal sample_python failed_runner
                ["print('hi')"; "1/0"] "1+1" empty_page
                (mkError "Error" "Failed to fetch") eq_refl) as H.
  split; [reflexivity|]. split; [apply H | apply H].
Defined.

(** *** The lines of a run *)

Lemma emitted_show_output (out err : string) (result : Value) (r : PythonRunner) :
  emitted (show_output out err result r) = emitted r ++ shown_lines out err result.
Proof.
  unfold show_output, shown_lines.
  destruct (truthy out), (truthy err), (is_present result); cbn [negb andb];
    fields; rewrite <- ?app_assoc, ?app_nil_r; reflexivity.
Qed.

Lemma emitted_runCode_resume (res : Completion Value) (r : PythonRunner) (py2 : Interp) :
  pyodide r = Some py2 ->
  emitted (runCode_resume res r) =
    emitted r ++
      match res, stop_capture py2 with
      | Returned result, (Returned (out, err), _) => shown_lines out err result
      | Returned _, (Thrown e, _) => [mkLine (formatPythonError e) stderr]
      | Thrown e, _ => [mkLine (formatPythonError e) stderr]
      end ++ [mkLine ">>> Execution complete." system].
Proof.
  intros Hp. unfold runCode_resume. fields.
  destruct res as [result|e].
  - rewrite (runPython_some stop_script r py2 Hp), stop_script_is_stop_capture.
    destruct (stop_capture py2) as [[[out err]|e] py3]; cbn [fst snd].
    + rewrite emitted_show_output. fields. rewrite <- app_assoc. reflexivity.
    + destruct (on_python_error_fields e (set_pyodide (Some py3) r)) as (_ & _ & -> & _).
      fields. rewrite <- app_assoc. reflexivity.
  - destruct (on_python_error_fields e r) as (_ & _ & -> & _).
    rewrite <- app_assoc. reflexivity.
Qed.

Lemma emitted_runCode
    (python : string -> Interp -> Completion Value * Interp)
    (text : string) (r : PythonRunner) :
  emitted (runCode python text r) = emitted r ++ run_block python text r.
Proof.
  unfold runCode, runCode_enter, run_block.
  destruct (isLoading r); [reflexivity|].
  destruct (isRunning r); [reflexivity|].
  destruct (truthy (trim text)); [|reflexivity]. cbn [negb].
  fold (announced r). unfold run_body, begin_capture.
  destruct (pyodide r) as [py|] eqn:Hp.
  - rewrite (runPython_some reset (announced r) py Hp).
    destruct (reset py) as [[[]|e] py'] eqn:Hreset; cbn [fst snd].
    + rewrite (runPython_some start_capture (set_pyodide (Some py') (announced r)) py' eq_refl).
      destruct (start_capture py') as [[[]|e] py1] eqn:Hstart; cbn [fst snd].
      * erewrite evaluate_some by reflexivity.
        erewrite emitted_runCode_resume by reflexivity.
        destruct (python (trim text) py1) as [res py2]. cbn [fst snd emitted].
        unfold announced. fields. rewrite <- !app_assoc. reflexivity.
      * unfold announced. fields. rewrite <- !app_assoc. reflexivity.
    + unfold announced. fields. rewrite <- !app_assoc. reflexivity.
  - rewrite (runPython_null reset (announced r) Hp).
    unfold announced. fields. rewrite <- !app_assoc. reflexivity.
Qed.

(** *** Classification of the outcome *)




(** *** Order of the lines of a run *)

Lemma shown_lines_shape (out err : string) (result : Value) :
  In (map type (shown_lines out err result)) body_shapes.
Proof.
  unfold shown_lines, body_shapes.
  destruct (truthy out), (truthy err), (is_present result); cbn; auto 8.
Qed.

Lemma run_body_shape
    (python : string -> Interp -> Completion Value * Interp)
    (code : string) (handle : option Interp) :
  In (map type (run_body python code handle)) body_shapes.
Proof.
  assert (E : In [stderr] body_shapes) by (cbn; auto 8).
  unfold run_body. destruct handle as [py|]; [|exact E].
  destruct (begin_capture py) as [[[]|e] py1]; [|exact E].
  destruct (python code py1) as [[result|e] py2]; [|exact E].
  destruct (stop_capture py2) as [[[out err]|e] py3]; [|exact E].
  apply shown_lines_shape.
Qed.





(** ** More on the runner *)

(** *** The bound on the log *)

(** Facts on halving, in the form [lia] can use. *)
Ltac halves :=
  repeat match goal with
  | |- context [?n / 2] =>
      lazymatch goal with
      | _ : n = 2 * (n / 2) + n mod 2 |- _ => fail
      | _ => pose proof (Nat.div_mod_eq n 2);
             pose proof (Nat.mod_upper_bound n 2 ltac:(discriminate))
      end
  | _ : context [?n / 2] |- _ =>
      lazymatch goal with
      | _ : n = 2 * (n / 2) + n mod 2 |- _ => fail
      | _ => pose proof (Nat.div_mod_eq n 2);
             pose proof (Nat.mod_upper_bound n 2 ltac:(discriminate))
      end
  end.

Lemma half_excess_step (len m i : nat) :
  i < S len - m ->
  (S len - m - i + 1) / 2 = S ((len - m - S i + 1) / 2).
Proof.
  intros H. destruct (Nat.eq_dec (S len - m - i) 1) as [E|E].
  - replace (S len - m - i + 1) with 2 by lia.
    replace (len - m - S i + 1) with 1 by lia. reflexivity.
  - replace (S len - m - i + 1) with (len - m - S i + 1 + 1 * 2) by lia.
    rewrite Nat.div_add by discriminate. lia.
Qed.

Lemma half_excess_zero (len m i : nat) :
  len - m <= i -> (len - m - i + 1) / 2 = 0.
Proof.
  intros H. replace (len - m - i + 1) with 1 by lia. reflexivity.
Qed.

Lemma drop_excess_drop (fuel i : nat) (lines : list OutputLine) :
  (length lines - maxLines - i + 1) / 2 <= fuel ->
  drop_excess fuel i lines = drop ((length lines - maxLines - i + 1) / 2) lines.
Proof.
  revert i lines. induction fuel as [|fuel IH]; intros i lines Hf.
  - assert (E : (length lines - maxLines - i + 1) / 2 = 0) by lia.
    rewrite E. reflexivity.
  - cbn [drop_excess].
    destruct (i <? length lines - maxLines)%nat eqn:Hlt.
    + apply Nat.ltb_lt in Hlt.
      destruct lines as [|l lines]; [simpl in Hlt; lia|].
      cbn [tail length] in *.
      rewrite half_excess_step in Hf |- * by exact Hlt.
      rewrite IH by lia. reflexivity.
    + apply Nat.ltb_ge in Hlt.
      rewrite half_excess_zero by exact Hlt. reflexivity.
Qed.

Lemma outputElement_appendOutput (c : string) (t : LineType) (r : PythonRunner) :
  outputElement (page (appendOutput c t r)) =
    drop ((length (outputElement (page r)) + 1 - maxLines + 1) / 2)
         (outputElement (page r) ++ [mkLine c t]).
Proof.
  unfold appendOutput. cbn [page outputElement].
  rewrite drop_excess_drop by (rewrite Nat.sub_0_r; halves; lia).
  rewrite length_app, Nat.sub_0_r. reflexivity.
Qed.

Lemma appendOutput_log_length (c : string) (t : LineType) (r : PythonRunner) :
  length (outputElement (page (appendOutput c t r))) =
    length (outputElement (page r)) + 1
      - (length (outputElement (page r)) + 1 - maxLines + 1) / 2.
Proof.
  rewrite outputElement_appendOutput, length_drop, length_app. reflexivity.
Qed.

(** X1. The loop of appendOutput that bounds the log reads the length of
    the live collection at each test, so it removes only half of the excess
    (rounded up) from the front: the children afterwards are the old ones
    and the new line, less that many of the oldest. *)
Theorem appendOutput_drops_half_the_excess
    (c : string) (t : LineType) (r : PythonRunner) :
  outputElement (page (appendOutput c t r)) =
    drop ((length (outputElement (page r)) + 1 - maxLines + 1) / 2)
         (outputElement (page r) ++ [mkLine c t]) /\
  length (outputElement (page (appendOutput c t r))) =
    length (outputElement (page r)) + 1
      - (length (outputElement (page r)) + 1 - maxLines + 1) / 2 /\
  last (outputElement (page (appendOutput c t r))) = Some (mkLine c t).
Proof.
  rewrite outputElement_appendOutput.
  set (old := outputElement (page r)).
  set (k := (length old + 1 - maxLines + 1) / 2).
  assert (Hk : k <= length old) by (unfold k, maxLines; halves; lia).
  split; [reflexivity|]. split.
  - rewrite length_drop, length_app. reflexivity.
  - rewrite drop_app_le by exact Hk. apply last_snoc.
Qed.

(** X2. A log within the bound stays within it when a line is appended, the
    oldest line making room; a log that is over the bound (lines can be added
    to the element without going through appendOutput) is never brought back
    under it by appendOutput. *)
Theorem appendOutput_bound_kept_or_missed
    (c : string) (t : LineType) (r : PythonRunner) :
  (log_bounded r -> log_bounded (appendOutput c t r)) /\
  (length (outputElement (page r)) = maxLines ->
   outputElement (page (appendOutput c t r)) =
     drop 1 (outputElement (page r)) ++ [mkLine c t]) /\
  (~ log_bounded r -> ~ log_bounded (appendOutput c t r)).
Proof.
  unfold log_bounded.
  pose proof (outputElement_appendOutput c t r) as Hd.
  pose proof (appendOutput_log_length c t r) as Hl.
  split; [|split].
  - intros H. rewrite Hl. halves. lia.
  - intros H. rewrite Hd, H.
    replace ((maxLines + 1 - maxLines + 1) / 2) with 1
      by (replace (maxLines + 1 - maxLines + 1) with 2 by lia; reflexivity).
    apply drop_app_le. rewrite H. unfold maxLines. lia.
  - intros H. rewrite Hl. halves. lia.
Qed.

Lemma appendOutput_bound_kept_or_missed_witness :
  log_bounded ready_runner /\
  log_bounded (appendOutput "hi" stdout ready_runner).
Proof.
  assert (H0 : log_bounded ready_runner)
    by (unfold log_bounded, maxLines; cbn; lia).
  destruct (appendOutput_bound_kept_or_missed "hi" stdout ready_runner) as (H & _).
  split; [exact H0 | exact (H H0)].
Defined.

(** *** What the operations keep of the log *)

(** Any property of a runner that appending a line keeps, and that depends
    only on the log and on the emitted lines, is kept by every operation
    that reaches the log through [appendOutput]. *)
Section KeptByOperations.

Variable I : PythonRunner -> Prop.
Hypothesis I_appendOutput : forall c t r, I r -> I (appendOutput c t r).
Hypothesis I_same_log :
  forall r r',
    outputElement (page r') = outputElement (page r) -> emitted r' = emitted r ->
    I r -> I r'.

Lemma kept_runPython {A : Type} (script : Interp -> Completion A * Interp) r :
  I r -> I (snd (runPython script r)).
Proof.
  destruct (runPython_frame script r) as (_ & _ & He & _ & Hp & _).
  apply I_same_log; [rewrite Hp; reflexivity | exact He].
Qed.

Lemma kept_run_finally r : I r -> I (run_finally r).
Proof.
  intros H. unfold run_finally. apply I_appendOutput.
  revert H. apply I_same_log; reflexivity.
Qed.

Lemma kept_on_python_error e r : I r -> I (on_python_error e r).
Proof.
  intros H. unfold on_python_error. apply I_appendOutput, kept_runPython, H.
Qed.

Lemma kept_show_output out err v r : I r -> I (show_output out err v r).
Proof.
  intros H. unfold show_output.
  destruct (truthy out), (truthy err), (is_present v); cbn [negb andb];
    repeat apply I_appendOutput; exact H.
Qed.

Lemma kept_runCode_resume res r : I r -> I (runCode_resume res r).
Proof.
  intros H. unfold runCode_resume. apply kept_run_finally.
  destruct res as [v|e]; [|apply kept_on_python_error, H].
  pose proof (kept_runPython stop_script r H) as H1.
  destruct (runPython stop_script r) as [[[out err]|e] r1]; cbn [snd] in H1.
  - apply kept_show_output, H1.
  - apply kept_on_python_error, H1.
Qed.

Lemma kept_announced r : I r -> I (announced r).
Proof.
  intros H. unfold announced. apply I_appendOutput.
  revert H. apply I_same_log; reflexivity.
Qed.

Lemma kept_runCode_enter text r : I r -> I (snd (runCode_enter text r)).
Proof.
  intros H. unfold runCode_enter.
  destruct (isLoading r); [apply I_appendOutput, H|].
  destruct (isRunning r); [apply I_appendOutput, H|].
  destruct (truthy (trim text)); cbn [negb]; [|apply I_appendOutput, H].
  fold (announced r).
  pose proof (kept_runPython reset _ (kept_announced r H)) as H1.
  destruct (runPython reset (announced r)) as [[[]|e] r3]; cbn [snd] in *.
  - pose proof (kept_runPython start_capture _ H1) as H2.
    destruct (runPython start_capture r3) as [[[]|e] r4]; cbn [snd] in *.
    + exact H2.
    + apply kept_run_finally, I_appendOutput, H2.
  - apply kept_run_finally, I_appendOutput, H1.
Qed.

Lemma kept_evaluate python code r : I r -> I (snd (evaluate python code r)).
Proof.
  intros H. unfold evaluate.
  pose proof (kept_runPython (python code) r H) as H1.
  destruct (runPython (python code) r) as [res r']. cbn [snd] in *.
  destruct (pyodide r); [|exact H1].
  revert H1. apply I_same_log; reflexivity.
Qed.

Lemma kept_runCode python text r : I r -> I (runCode python text r).
Proof.
  intros H. unfold runCode.
  pose proof (kept_runCode_enter text r H) as H1.
  destruct (runCode_enter text r) as [[| |code] r1]; cbn [snd] in H1; try exact H1.
  pose proof (kept_evaluate python code r1 H1) as H2.
  destruct (evaluate python code r1) as [res r2]. cbn [snd] in H2.
  apply kept_runCode_resume, H2.
Qed.

Lemma kept_init_resume o r : I r -> I (init_resume o r).
Proof.
  intros H.
  assert (G : forall e r0, I r0 -> I (init_catch e r0)).
  { intros e r0 H0. unfold init_catch. apply I_appendOutput.
    revert H0. apply I_same_log; reflexivity. }
  unfold init_resume, setupPythonEnvironment. destruct o as [|e]; [|apply G, H].
  assert (H0 : I (set_pyodide (Some fresh) r))
    by (revert H; apply I_same_log; reflexivity).
  pose proof (kept_runPython setup_script _ H0) as H1.
  destruct (runPython setup_script (set_pyodide (Some fresh) r)) as [[[]|e] r1];
    cbn [snd] in H1; [|apply G, H1].
  do 2 apply I_appendOutput. revert H1. apply I_same_log; reflexivity.
Qed.

Lemma kept_installPackage_begin name r :
  I r -> I (snd (installPackage_begin name r)).
Proof.
  intros H. unfold installPackage_begin.
  destruct (isLoading r); [apply I_appendOutput, H|].
  rewrite pyodide_appendOutput.
  destruct (pyodide r); cbn [snd]; repeat apply I_appendOutput; exact H.
Qed.

Lemma kept_installPackage_settle name o r :
  I r -> I (installPackage_settle name o r).
Proof. intros H. destruct o; apply I_appendOutput, H. Qed.

Lemma kept_act python a w w' :
  I (runner w) -> act python a w = Some w' -> I (runner w').
Proof.
  intros H Ha. destruct a as [text| |o]; cbn [act] in Ha.
  - pose proof (kept_runCode_enter text (runner w) H) as H1.
    destruct (runCode_enter text (runner w)) as [[| |code] r'];
      injection Ha as <-; exact H1.
  - destruct (in_flight w) as [|code rest]; [discriminate|].
    pose proof (kept_evaluate python code (runner w) H) as H1.
    destruct (evaluate python code (runner w)) as [res r'].
    injection Ha as <-. apply kept_runCode_resume, H1.
  - destruct (isLoading (runner w)); [|discriminate].
    injection Ha as <-. apply kept_init_resume, H.
Qed.

Lemma kept_run_actions python acts w w' :
  I (runner w) -> run_actions python acts w = Some w' -> I (runner w').
Proof.
  revert w. induction acts as [|a acts IH]; intros w H Hrun; cbn [run_actions] in Hrun.
  - injection Hrun as <-. exact H.
  - destruct (act python a w) as [w1|] eqn:Ha; [|discriminate].
    apply (IH w1); [eapply kept_act; eauto | exact Hrun].
Qed.

End KeptByOperations.

Lemma log_bounded_same_log r r' :
  outputElement (page r') = outputElement (page r) -> emitted r' = emitted r ->
  log_bounded r -> log_bounded r'.
Proof. unfold log_bounded. intros -> _. auto. Qed.

Lemma log_bounded_clearOutput r : log_bounded (clearOutput r).
Proof.
  unfold clearOutput. apply appendOutput_bounded.
  unfold maxLines. cbn. lia.
Qed.

(** X3. Every operation of the runner keeps the log within the bound of
    appendOutput: runCode, the settling of init, clearOutput (which
    establishes it), installPackage; so in every world reached from a runner
    built on a page whose log is within the bound, the log holds at most
    [maxLines] lines. *)
Theorem log_stays_bounded
    (python : string -> Interp -> Completion Value * Interp)
    (p : Page) (acts : list Action) (w : World) :
  length (outputElement p) <= maxLines ->
  run_actions python acts (boot p) = Some w ->
  log_bounded (runner w) /\
  (forall text, log_bounded (runCode python text (runner w))) /\
  log_bounded (clearOutput (runner w)) /\
  (forall name o,
     log_bounded (snd (installPackage_begin name (runner w))) /\
     log_bounded (installPackage_settle name o (runner w))).
Proof.
  intros Hp Hrun.
  assert (Hw : log_bounded (runner w)).
  { apply (kept_run_actions log_bounded appendOutput_bounded log_bounded_same_log
             python acts (boot p) w); [exact Hp | exact Hrun]. }
  split; [exact Hw|].
  split.
  { intros text.
    apply (kept_runCode log_bounded appendOutput_bounded log_bounded_same_log), Hw. }
  split; [apply log_bounded_clearOutput|].
  intros name o. split.
  - apply (kept_installPackage_begin log_bounded appendOutput_bounded), Hw.
  - apply (kept_installPackage_settle log_bounded appendOutput_bounded), Hw.
Qed.

Lemma log_stays_bounded_witness :
  length (outputElement empty_page) <= maxLines /\
  log_bounded (runner sample_world) /\
  log_bounded (runCode sample_python "1+1" (runner sample_world)).
Proof.
  pose proof (log_stays_bounded sample_python empty_page
                [LoadSettled Loaded; Request "1/0"; Request "1+1"; Resume;
                 Request "print('hi')"; Request "x=1"]
                sample_world) as H.
  assert (H0 : length (outputElement empty_page) <= maxLines)
    by (unfold maxLines; simpl; lia).
  destruct (H H0 eq_refl) as (H1 & H2 & _).
  split; [exact H0|]. split; [exact H1 | apply H2].
Defined.

Lemma log_is_recent_appendOutput c t r :
  log_is_recent r -> log_is_recent (appendOutput c t r).
Proof.
  unfold log_is_recent. intros H.
  rewrite outputElement_appendOutput, emitted_appendOutput.
  etransitivity; [apply suffix_drop|]. apply suffix_app, H.
Qed.

Lemma log_is_recent_same_log r r' :
  outputElement (page r') = outputElement (page r) -> emitted r' = emitted r ->
  log_is_recent r -> log_is_recent r'.
Proof. unfold log_is_recent. intros -> ->. auto. Qed.

Lemma log_is_recent_clearOutput r : log_is_recent (clearOutput r).
Proof.
  unfold log_is_recent, clearOutput.
  rewrite outputElement_appendOutput, emitted_appendOutput.
  etransitivity; [apply suffix_drop|].
  cbn [page set_page outputElement emitted]. apply suffix_app_r. reflexivity.
Qed.

(** X5. The log never shows anything but emitted lines, in the order they
    were emitted and without gaps: in every world reached from a runner built
    on a page with an empty log, and after any further runCode, clearOutput
    or installPackage, the children of the log are the last lines emitted. *)
Theorem log_shows_latest_lines
    (python : string -> Interp -> Completion Value * Interp)
    (p : Page) (acts : list Action) (w : World) :
  outputElement p = [] ->
  run_actions python acts (boot p) = Some w ->
  log_is_recent (runner w) /\
  (forall text, log_is_recent (runCode python text (runner w))) /\
  log_is_recent (clearOutput (runner w)) /\
  (forall text, log_is_recent (runCode python text (clearOutput (runner w)))) /\
  (forall name o,
     log_is_recent (snd (installPackage_begin name (runner w))) /\
     log_is_recent (installPackage_settle name o (runner w))).
Proof.
  intros Hp Hrun.
  assert (Hw : log_is_recent (runner w)).
  { apply (kept_run_actions log_is_recent log_is_recent_appendOutput
             log_is_recent_same_log python acts (boot p) w); [|exact Hrun].
    unfold log_is_recent. cbn. rewrite Hp. reflexivity. }
  split; [exact Hw|].
  split.
  { intros text.
    apply (kept_runCode log_is_recent log_is_recent_appendOutput
             log_is_recent_same_log), Hw. }
  split; [apply log_is_recent_clearOutput|].
  split.
  { intros text.
    apply (kept_runCode log_is_recent log_is_recent_appendOutput
             log_is_recent_same_log), log_is_recent_clearOutput. }
  intros name o. split.
  - apply (kept_installPackage_begin log_is_recent log_is_recent_appendOutput), Hw.
  - apply (kept_installPackage_settle log_is_recent log_is_recent_appendOutput), Hw.
Qed.

Lemma log_shows_latest_lines_witness :
  outputElement empty_page = [] /\
  log_is_recent (runner sample_world) /\
  log_is_recent (runCode sample_python "1+1" (clearOutput (runner sample_world))).
Proof.
  destruct (log_shows_latest_lines sample_python empty_page
              [LoadSettled Loaded; Request "1/0"; Request "1+1"; Resume;
               Request "print('hi')"; Request "x=1"]
              sample_world eq_refl eq_refl) as (H1 & _ & _ & H2 & _).
  split; [reflexivity|]. split; [exact H1 | apply H2].
Defined.

(** *** The run button and the loading indicator *)

Lemma chrome_appendOutput c t r : chrome (appendOutput c t r) = chrome r.
Proof. reflexivity. Qed.

Lemma chrome_page r r' : page r' = page r -> chrome r' = chrome r.
Proof. unfold chrome. intros ->. reflexivity. Qed.

Lemma chrome_runPython {A : Type} (script : Interp -> Completion A * Interp) r :
  chrome (snd (runPython script r)) = chrome r.
Proof. apply chrome_page. apply (runPython_frame script r). Qed.

Lemma chrome_on_python_error e r : chrome (on_python_error e r) = chrome r.
Proof.
  unfold on_python_error. rewrite chrome_appendOutput. apply chrome_runPython.
Qed.

Lemma chrome_show_output out err v r : chrome (show_output out err v r) = chrome r.
Proof.
  unfold show_output.
  destruct (truthy out), (truthy err), (is_present v); reflexivity.
Qed.

Lemma chrome_run_finally r :
  chrome (run_finally r) =
    ("none", statusElement (page r), loadingOverlay (page r), ("fas fa-play", false)).
Proof. reflexivity. Qed.

Lemma chrome_status_overlay r r' :
  chrome r' = chrome r ->
  statusElement (page r') = statusElement (page r) /\
  loadingOverlay (page r') = loadingOverlay (page r).
Proof. unfold chrome. intros H. injection H as _ -> -> _. split; reflexivity. Qed.

Lemma chrome_runCode_resume res r :
  chrome (runCode_resume res r) =
    ("none", statusElement (page r), loadingOverlay (page r), ("fas fa-play", false)).
Proof.
  unfold runCode_resume. rewrite chrome_run_finally.
  assert (G : forall r', chrome r' = chrome r ->
            ("none", statusElement (page r'), loadingOverlay (page r'),
             ("fas fa-play", false)) =
            ("none", statusElement (page r), loadingOverlay (page r),
             ("fas fa-play", false))).
  { intros r' H. destruct (chrome_status_overlay r r' H) as [-> ->]. reflexivity. }
  apply G. destruct res as [v|e]; [|apply chrome_on_python_error].
  pose proof (chrome_runPython stop_script r) as H1.
  destruct (runPython stop_script r) as [[[out err]|e] r1]; cbn [snd] in H1.
  - rewrite chrome_show_output. exact H1.
  - rewrite chrome_on_python_error. exact H1.
Qed.

Lemma chrome_evaluate python code r : chrome (snd (evaluate python code r)) = chrome r.
Proof.
  unfold evaluate. pose proof (chrome_runPython (python code) r) as H.
  destruct (runPython (python code) r) as [res r']. cbn [snd] in *.
  destruct (pyodide r); exact H.
Qed.

(** X4. Around an accepted run the run button and the loading indicator are
    switched as a pair: while the user's code is evaluated the button shows
    the spinner and is disabled and the indicator is shown; when the call
    returns, by whichever path (output shown, Python error, the capture
    failing to start), the button is enabled with its play icon and the
    indicator is hidden, and the status text and the overlay are as before.
    A refused call leaves all four alone. *)
Theorem run_button_follows_the_run
    (python : string -> Interp -> Completion Value * Interp)
    (text : string) (r : PythonRunner) :
  isLoading r = false -> isRunning r = false -> truthy (trim text) = true ->
  chrome (runCode python text r) =
    ("none", statusElement (page r), loadingOverlay (page r), ("fas fa-play", false)) /\
  isRunning (runCode python text r) = false /\
  (forall code r1,
     runCode_enter text r = (Evaluating code, r1) ->
     chrome r1 =
       ("flex", statusElement (page r), loadingOverlay (page r),
        ("fas fa-spinner fa-spin", true)) /\
     isRunning r1 = true) /\
  (forall text' r0,
     fst (runCode_enter text' r0) = Refused ->
     chrome (runCode python text' r0) = chrome r0).
Proof.
  intros HL HR HT.
  assert (Hann : chrome (announced r) =
                 ("flex", statusElement (page r), loadingOverlay (page r),
                  ("fas fa-spinner fa-spin", true))) by reflexivity.
  assert (Hent : forall code r1,
             runCode_enter text r = (Evaluating code, r1) ->
             chrome r1 = chrome (announced r) /\ isRunning r1 = true).
  { intros code r1 He.
    destruct (runCode_enter_evaluating text code r r1 He)
      as (_ & _ & _ & _ & py & py1 & _ & _ & ->). split; reflexivity. }
  split; [|split; [|split]].
  - unfold runCode.
    destruct (runCode_enter text r) as [[| |code] r1] eqn:He.
    + exfalso. unfold runCode_enter in He. rewrite HL, HR, HT in He. cbn [negb] in He.
      destruct (runPython reset _) as [[[]|e] r3];
        [destruct (runPython start_capture r3) as [[[]|e] r4]|]; discriminate.
    + unfold runCode_enter in He. rewrite HL, HR, HT in He. cbn [negb] in He.
      fold (announced r) in He.
      pose proof (chrome_runPython reset (announced r)) as H3.
      destruct (runPython reset (announced r)) as [[[]|e] r3]; cbn [snd] in H3.
      * pose proof (chrome_runPython start_capture r3) as H4.
        destruct (runPython start_capture r3) as [[[]|e] r4]; cbn [snd] in H4;
          [discriminate|].
        injection He as <-. unfold on_runtime_error.
        rewrite chrome_run_finally.
        assert (H5 : chrome (appendOutput ("Runtime Error: " ++ message e)%string stderr r4)
                     = chrome (announced r))
          by (rewrite chrome_appendOutput, H4, H3; reflexivity).
        destruct (chrome_status_overlay _ _ H5) as [-> ->]. reflexivity.
      * injection He as <-. unfold on_runtime_error.
        rewrite chrome_run_finally.
        assert (H5 : chrome (appendOutput ("Runtime Error: " ++ message e)%string stderr r3)
                     = chrome (announced r))
          by (rewrite chrome_appendOutput, H3; reflexivity).
        destruct (chrome_status_overlay _ _ H5) as [-> ->]. reflexivity.
    + destruct (Hent code r1 eq_refl) as [H1 _].
      pose proof (chrome_evaluate python code r1) as H2.
      destruct (evaluate python code r1) as [res r2]. cbn [snd] in H2.
      rewrite chrome_runCode_resume.
      assert (H5 : chrome r2 = chrome (announced r)) by (rewrite H2, H1; reflexivity).
      destruct (chrome_status_overlay _ _ H5) as [-> ->]. reflexivity.
  - unfold runCode.
    pose proof (runCode_enter_flag text r) as Hf.
    destruct (runCode_enter text r) as [[| |code] r1] eqn:He.
    + rewrite Hf. exact HR.
    + apply Hf.
    + destruct (evaluate python code r1). apply isRunning_runCode_resume.
  - intros code r1 He. destruct (Hent code r1 He) as [H1 H2].
    split; [rewrite H1; exact Hann | exact H2].
  - intros text' r0 Hre. unfold runCode.
    destruct (runCode_enter text' r0) as [[| |code] r1] eqn:He; try discriminate.
    unfold runCode_enter in He.
    destruct (isLoading r0); [injection He as <-; reflexivity|].
    destruct (isRunning r0); [injection He as <-; reflexivity|].
    destruct (truthy (trim text')); cbn [negb] in He; [|injection He as <-; reflexivity].
    destruct (runPython reset _) as [[[]|e] r3];
      [destruct (runPython start_capture r3) as [[[]|e] r4]|]; discriminate.
Qed.

Lemma run_button_follows_the_run_witness :
  chrome (runCode sample_python "1/0" ready_runner) =
    ("none", "Python ready", Some "none", ("fas fa-play", false)) /\
  isRunning (runCode sample_python "1/0" ready_runner) = false.
Proof.
  pose proof (run_button_follows_the_run sample_python "1/0" ready_runner
                eq_refl eq_refl eq_refl) as (H1 & H2 & _).
  split; [exact H1 | exact H2].
Defined.

(** *** The streams after a run *)

Lemma stop_capture_keeps (py : Interp) (c : OutputCapture) :
  output_capture py = Some c ->
  output_capture (snd (stop_capture py)) = Some c /\
  sys_stdout (snd (stop_capture py)) = original_stdout c /\
  sys_stderr (snd (stop_capture py)) = original_stderr c.
Proof.
  intros Hc. unfold stop_capture. rewrite Hc.
  destruct (stringios py !! self_stdout c), (stringios py !! self_stderr c);
    cbn; repeat split; exact Hc.
Qed.

Lemma pyodide_show_output out err v r : pyodide (show_output out err v r) = pyodide r.
Proof.
  unfold show_output.
  destruct (truthy out), (truthy err), (is_present v); reflexivity.
Qed.

Lemma runCode_resume_interp (res : Completion Value) (r : PythonRunner)
    (py2 : Interp) (c : OutputCapture) :
  pyodide r = Some py2 -> output_capture py2 = Some c ->
  exists pyF,
    pyodide (runCode_resume res r) = Some pyF /\
    output_capture pyF = Some c /\
    sys_stdout pyF = original_stdout c /\ sys_stderr pyF = original_stderr c.
Proof.
  intros Hp Hc. unfold runCode_resume.
  assert (Hf : forall x, pyodide (run_finally x) = pyodide x) by reflexivity.
  rewrite Hf.
  destruct (stop_capture_keeps py2 c Hc) as (K1 & K2 & K3).
  destruct res as [v|e].
  - rewrite (runPython_some stop_script r py2 Hp), stop_script_is_stop_capture.
    destruct (stop_capture py2) as [[[out err]|e] py3]; cbn [fst snd] in *.
    + rewrite pyodide_show_output. exists py3. repeat split; assumption.
    + destruct (on_python_error_fields e (set_pyodide (Some py3) r)) as (-> & _).
      cbn [pyodide set_pyodide].
      destruct (stop_capture_keeps py3 c K1) as (L1 & L2 & L3).
      eexists. repeat split; eassumption.
  - destruct (on_python_error_fields e r) as (-> & _). rewrite Hp.
    eexists. repeat split; eassumption.
Qed.

Lemma runCode_keeps_streams
    (python : string -> Interp -> Completion Value * Interp)
    (text : string) (r : PythonRunner) (py : Interp) :
  keeps_capture python ->
  pyodide r = Some py -> output_capture py <> None ->
  exists pyF,
    pyodide (runCode python text r) = Some pyF /\
    output_capture pyF <> None /\
    sys_stdout pyF = sys_stdout py /\ sys_stderr pyF = sys_stderr py.
Proof.
  intros Hk Hp Hc. unfold runCode.
  destruct (runCode_enter text r) as [[| |code] r1] eqn:He.
  - exists py. unfold runCode_enter in He.
    destruct (isLoading r); [injection He as <-; auto|].
    destruct (isRunning r); [injection He as <-; auto|].
    destruct (truthy (trim text)); cbn [negb] in He; [|injection He as <-; auto].
    destruct (runPython reset _) as [[[]|e] r3];
      [destruct (runPython start_capture r3) as [[[]|e] r4]|]; discriminate.
  - exfalso. unfold runCode_enter in He.
    destruct (isLoading r); [discriminate|].
    destruct (isRunning r); [discriminate|].
    destruct (truthy (trim text)); cbn [negb] in He; [|discriminate].
    fold (announced r) in He.
    rewrite (runPython_some reset (announced r) py Hp) in He.
    unfold reset in He. destruct (output_capture py) as [c0|]; [|congruence].
    cbn [fst snd] in He.
    erewrite runPython_some in He by reflexivity.
    discriminate He.
  - destruct (runCode_enter_evaluating text code r r1 He)
      as (_ & _ & _ & _ & py0 & py1 & Hp0 & Hb & ->).
    rewrite Hp in Hp0. injection Hp0 as <-.
    destruct (begin_capture_returns py Hc) as (py1' & Hb' & Hcap & _).
    rewrite Hb in Hb'. injection Hb' as <-.
    erewrite evaluate_some by reflexivity.
    destruct (runCode_resume_interp (fst (python code py1))
                (mkRunner (Some (snd (python code py1)))
                   (isLoading (set_pyodide (Some py1) (announced r)))
                   (isRunning (set_pyodide (Some py1) (announced r)))
                   (page (set_pyodide (Some py1) (announced r)))
                   (emitted (set_pyodide (Some py1) (announced r)))
                   (evaluated (set_pyodide (Some py1) (announced r)) ++ [code]))
                (snd (python code py1)) _ eq_refl
                (eq_trans (Hk code py1) Hcap))
      as (pyF & H1 & H2 & H3 & H4).
    exists pyF. split; [exact H1|]. split; [congruence|].
    split; assumption.
Qed.

Lemma output_capture_write st s py : output_capture (write st s py) = output_capture py.
Proof. destruct st; reflexivity. Qed.

Lemma sample_python_keeps_capture : keeps_capture sample_python.
Proof.
  intros code py. unfold sample_python.
  repeat match goal with
         | |- context [String.eqb code ?s] => destruct (String.eqb code s)
         end;
    cbn [snd]; rewrite ?output_capture_write; reflexivity.
Qed.

(** X6. A call of runCode gives the interpreter back with [sys.stdout] and
    [sys.stderr] bound as it found them, whether the code returned, threw,
    or the call was refused, provided the user's code leaves the global
    [_output_capture] alone; hence so does any sequence of calls: no run
    leaves the streams redirected for the next one. *)
Theorem runs_leave_streams_as_found
    (python : string -> Interp -> Completion Value * Interp)
    (texts : list string) (r : PythonRunner) (py : Interp) :
  keeps_capture python ->
  pyodide r = Some py -> output_capture py <> None ->
  exists pyF,
    pyodide (run_all python texts r) = Some pyF /\
    output_capture pyF <> None /\
    sys_stdout pyF = sys_stdout py /\ sys_stderr pyF = sys_stderr py.
Proof.
  intros Hk. unfold run_all. revert r py.
  induction texts as [|t ts IH]; intros r py Hp Hc; cbn [fold_left].
  - exists py. auto.
  - destruct (runCode_keeps_streams python t r py Hk Hp Hc) as (py' & H1 & H2 & H3 & H4).
    destruct (IH _ py' H1 H2) as (pyF & G1 & G2 & G3 & G4).
    exists pyF. repeat split; congruence.
Qed.

Lemma runs_leave_streams_as_found_witness :
  exists pyF,
    pyodide (run_all sample_python ["print('hi')"; "1/0"; " "; "1+1"] ready_runner)
      = Some pyF /\
    sys_stdout pyF = TtyOut /\ sys_stderr pyF = TtyErr.
Proof.
  destruct (runs_leave_streams_as_found sample_python
              ["print('hi')"; "1/0"; " "; "1+1"] ready_runner (reset_body fresh)
              sample_python_keeps_capture eq_refl)
    as (pyF & H1 & _ & H3 & H4); [discriminate|].
  exists pyF. repeat split; assumption.
Defined.

(** *** The text that is run *)

Lemma trimEnd_idempotent (s : string) : trimEnd (trimEnd s) = trimEnd s.
Proof.
  induction s as [|c s IH]; [reflexivity|].
  cbn [trimEnd]. destruct (trimEnd s) as [|c' t] eqn:Ht.
  - destruct (is_whitespace c) eqn:Hc; [reflexivity|].
    cbn [trimEnd]. rewrite Hc. reflexivity.
  - change (trimEnd (String c (String c' t)))
      with (match trimEnd (String c' t) with
            | EmptyString =>
                if is_whitespace c then EmptyString else String c EmptyString
            | u => String c u
            end).
    rewrite IH. reflexivity.
Qed.

Lemma trimStart_trimEnd_head (c : ascii) (s : string) :
  is_whitespace c = false ->
  trimStart (trimEnd (String c s)) = trimEnd (String c s).
Proof.
  intros Hc. cbn [trimEnd].
  destruct (trimEnd s); [rewrite Hc|]; cbn [trimStart]; rewrite Hc; reflexivity.
Qed.

Lemma trim_idempotent (s : string) : trim (trim s) = trim s.
Proof.
  unfold trim. destruct (all_whitespace s) eqn:Hs.
  - rewrite (trimStart_blank s Hs). reflexivity.
  - destruct (trimStart_head s Hs) as (c & s' & -> & Hc).
    rewrite (trimStart_trimEnd_head c s' Hc). apply trimEnd_idempotent.
Qed.

Lemma evaluated_show_output out err v r : evaluated (show_output out err v r) = evaluated r.
Proof.
  unfold show_output.
  destruct (truthy out), (truthy err), (is_present v); reflexivity.
Qed.

Lemma evaluated_runCode_resume res r : evaluated (runCode_resume res r) = evaluated r.
Proof.
  unfold runCode_resume.
  assert (Hf : forall x, evaluated (run_finally x) = evaluated x) by reflexivity.
  rewrite Hf. destruct res as [v|e].
  - destruct (runPython_frame stop_script r) as (_ & _ & _ & H & _).
    destruct (runPython stop_script r) as [[[out err]|e] r1]; cbn [snd] in H.
    + rewrite evaluated_show_output. exact H.
    + destruct (on_python_error_fields e r1) as (_ & _ & _ & ->). exact H.
  - apply on_python_error_fields.
Qed.

(** X7. The interpreter is given the trimmed editor text: white space around
    the code changes nothing in what a call does. A call hands the
    interpreter at most one piece of user code, exactly when the guards let
    it through and the capture could be started, and that piece is the
    trimmed text. *)
Theorem runCode_runs_trimmed_text_once
    (python : string -> Interp -> Completion Value * Interp)
    (text : string) (r : PythonRunner) :
  runCode python (trim text) r = runCode python text r /\
  evaluated (runCode python text r) =
    evaluated r ++
      match fst (runCode_enter text r) with
      | Evaluating _ => [trim text]
      | _ => []
      end.
Proof.
  split.
  - unfold runCode, runCode_enter. rewrite trim_idempotent. reflexivity.
  - unfold runCode.
    destruct (runCode_enter text r) as [[| |code] r1] eqn:He; cbn [fst].
    + rewrite app_nil_r. unfold runCode_enter in He.
      destruct (isLoading r); [injection He as <-; reflexivity|].
      destruct (isRunning r); [injection He as <-; reflexivity|].
      destruct (truthy (trim text)); cbn [negb] in He; [|injection He as <-; reflexivity].
      destruct (runPython reset _) as [[[]|e] r3];
        [destruct (runPython start_capture r3) as [[[]|e] r4]|]; discriminate.
    + rewrite app_nil_r. unfold runCode_enter in He.
      destruct (isLoading r); [discriminate|].
      destruct (isRunning r); [discriminate|].
      destruct (truthy (trim text)); cbn [negb] in He; [|discriminate].
      fold (announced r) in He.
      destruct (runPython_frame reset (announced r)) as (_ & _ & _ & H3 & _).
      destruct (runPython reset (announced r)) as [[[]|e] r3]; cbn [snd] in H3.
      * destruct (runPython_frame start_capture r3) as (_ & _ & _ & H4 & _).
        destruct (runPython start_capture r3) as [[[]|e] r4]; cbn [snd] in H4;
          [discriminate|].
        injection He as <-. unfold on_runtime_error. fields. rewrite H4, H3. reflexivity.
      * injection He as <-. unfold on_runtime_error. fields. exact H3.
    + destruct (runCode_enter_evaluating text code r r1 He)
        as (_ & _ & -> & _ & py & py1 & _ & _ & ->).
      erewrite evaluate_some by reflexivity.
      rewrite evaluated_runCode_resume. reflexivity.
Qed.

(** *** The log and the emitted lines *)

Lemma appendOutput_with_room c t r :
  length (outputElement (page r)) < maxLines ->
  outputElement (page (appendOutput c t r)) = outputElement (page r) ++ [mkLine c t].
Proof.
  intros H. rewrite outputElement_appendOutput.
  replace ((length (outputElement (page r)) + 1 - maxLines + 1) / 2) with 0;
    [reflexivity|].
  replace (length (outputElement (page r)) + 1 - maxLines + 1) with 1 by lia.
  reflexivity.
Qed.

Lemma logged_since_appendOutput r0 c t r :
  logged_since r0 r -> logged_since r0 (appendOutput c t r).
Proof.
  intros (block & He & Hl). exists (block ++ [mkLine c t]). split.
  - rewrite emitted_appendOutput, He, app_assoc. reflexivity.
  - rewrite length_app. cbn [length]. intros Hroom.
    rewrite appendOutput_with_room.
    + rewrite Hl by lia. rewrite app_assoc. reflexivity.
    + rewrite Hl by lia. rewrite length_app. lia.
Qed.

Lemma logged_since_same_log r0 r r' :
  outputElement (page r') = outputElement (page r) -> emitted r' = emitted r ->
  logged_since r0 r -> logged_since r0 r'.
Proof. unfold logged_since. intros -> ->. auto. Qed.

Lemma logged_since_refl r : logged_since r r.
Proof. exists []. rewrite !app_nil_r. auto. Qed.

Lemma run_block_length python text r : length (run_block python text r) <= 4.
Proof.
  unfold run_block.
  destruct (isLoading r); [simpl; lia|].
  destruct (isRunning r); [simpl; lia|].
  destruct (truthy (trim text)); [|simpl; lia].
  pose proof (run_body_shape python (trim text) (pyodide r)) as H.
  rewrite !length_app. cbn [length].
  rewrite <- (length_map type).
  unfold body_shapes in H. cbn [In] in H.
  destruct H as [<-|[<-|[<-|[<-|[<-|[<-|[]]]]]]]; simpl; lia.
Qed.

(** X8. The lines a call of runCode emits are the lines it adds to the log,
    in the same order, whenever the log has room for them (a call emits at
    most four). In particular clearOutput followed by a run leaves in the
    log exactly the line "Output cleared." and the lines of that run. *)
Theorem run_lines_reach_the_log
    (python : string -> Interp -> Completion Value * Interp)
    (text : string) (r : PythonRunner) :
  length (outputElement (page r)) + 4 <= maxLines ->
  length (run_block python text r) <= 4 /\
  outputElement (page (runCode python text r)) =
    outputElement (page r) ++ run_block python text r /\
  outputElement (page (clearOutput r)) = [mkLine "Output cleared." system] /\
  outputElement (page (runCode python text (clearOutput r))) =
    mkLine "Output cleared." system :: run_block python text (clearOutput r).
Proof.
  intros Hroom.
  assert (G : forall r0, length (outputElement (page r0)) + 4 <= maxLines ->
            outputElement (page (runCode python text r0)) =
              outputElement (page r0) ++ run_block python text r0).
  { intros r0 H0.
    destruct (kept_runCode (logged_since r0) (logged_since_appendOutput r0)
                (logged_since_same_log r0) python text r0 (logged_since_refl r0))
      as (block & He & Hl).
    rewrite emitted_runCode in He. apply app_inv_head in He. subst block.
    apply Hl. pose proof (run_block_length python text r0). lia. }
  assert (Hclear : outputElement (page (clearOutput r)) =
                   [mkLine "Output cleared." system]).
  { unfold clearOutput. rewrite appendOutput_with_room; [reflexivity|].
    unfold maxLines. cbn. lia. }
  split; [apply run_block_length|].
  split; [apply G, Hroom|].
  split; [exact Hclear|].
  rewrite G; rewrite Hclear; [reflexivity|].
  unfold maxLines. cbn. lia.
Qed.

Lemma run_lines_reach_the_log_witness :
  outputElement (page (runCode sample_python "1+1" (clearOutput ready_runner))) =
    [mkLine "Output cleared." system;
     mkLine ">>> Running Python code..." system;
     mkLine "2" stdout;
     mkLine "Code executed successfully (no output)" system;
     mkLine ">>> Execution complete." system].
Proof.
  assert (H0 : length (outputElement (page ready_runner)) + 4 <= maxLines)
    by (unfold maxLines; cbn; lia).
  destruct (run_lines_reach_the_log sample_python "1+1" ready_runner H0)
    as (_ & _ & _ & H).
  exact H.
Defined.

(** *** Installing a package *)

(** X9. installPackage is refused with the one system line while the runner
    is loading. Otherwise it announces the installation and then emits
    exactly one more line: at once, a stderr line "Failed to install ..."
    when the runner has no interpreter (the call on the null handle throws
    and is caught), else when the promise settles, a system line on success
    or a stderr line carrying the reason on failure. It is not held back by
    a run in progress, and it changes neither the flags nor the interpreter
    nor what has been evaluated. *)
Theorem installPackage_lines (packageName : string) (o : PackageOutcome)
    (r : PythonRunner) :
  (isLoading r = true ->
   installPackage_begin packageName r =
     (InstallRefused,
      appendOutput "Python environment is still loading. Please wait..." system r)) /\
  (isLoading r = false -> pyodide r = None ->
   fst (installPackage_begin packageName r) = InstallThrew /\
   emitted (snd (installPackage_begin packageName r)) =
     emitted r ++
       [mkLine ("Installing package: " ++ packageName)%string system;
        mkLine ("Failed to install " ++ packageName
                  ++ ": Cannot read properties of null (reading 'loadPackage')")%string
               stderr]) /\
  (isLoading r = false -> pyodide r <> None ->
   fst (installPackage_begin packageName r) = InstallPending /\
   emitted (installPackage_settle packageName o (snd (installPackage_begin packageName r))) =
     emitted r ++
       [mkLine ("Installing package: " ++ packageName)%string system;
        match o with
        | PackageLoaded =>
            mkLine ("Successfully installed: " ++ packageName)%string system
        | PackageFailed e =>
            mkLine ("Failed to install " ++ packageName ++ ": " ++ message e)%string
                   stderr
        end]) /\
  (isLoading (snd (installPackage_begin packageName r)) = isLoading r /\
   isRunning (snd (installPackage_begin packageName r)) = isRunning r /\
   pyodide (snd (installPackage_begin packageName r)) = pyodide r /\
   evaluated (snd (installPackage_begin packageName r)) = evaluated r /\
   chrome (snd (installPackage_begin packageName r)) = chrome r) /\
  (isLoading (installPackage_settle packageName o r) = isLoading r /\
   isRunning (installPackage_settle packageName o r) = isRunning r /\
   pyodide (installPackage_settle packageName o r) = pyodide r /\
   evaluated (installPackage_settle packageName o r) = evaluated r /\
   chrome (installPackage_settle packageName o r) = chrome r).
Proof.
  unfold installPackage_begin. rewrite pyodide_appendOutput.
  split; [|split; [|split; [|split]]].
  - intros ->. reflexivity.
  - intros -> ->. cbn [fst snd]. split; [reflexivity|].
    rewrite !emitted_appendOutput, <- app_assoc. reflexivity.
  - intros -> Hp. destruct (pyodide r); [|congruence]. cbn [fst snd].
    split; [reflexivity|].
    destruct o; unfold installPackage_settle;
      rewrite !emitted_appendOutput, <- app_assoc; reflexivity.
  - destruct (isLoading r) eqn:HL, (pyodide r) eqn:Hp; cbn;
      rewrite ?HL, ?Hp; repeat split.
  - destruct o; repeat split.
Qed.

Lemma installPackage_lines_witness :
  fst (installPackage_begin "numpy" failed_runner) = InstallThrew /\
  emitted (snd (installPackage_begin "numpy" failed_runner)) =
    emitted failed_runner ++
      [mkLine "Installing package: numpy" system;
       mkLine "Failed to install numpy: Cannot read properties of null (reading 'loadPackage')"
              stderr].
Proof.
  destruct (installPackage_lines "numpy" PackageLoaded failed_runner) as (_ & H & _).
  exact (H eq_refl eq_refl).
Defined.

(** ** The editor: what a reload brings back *)

Module EditorFacts.
Import Editor.

Lemma usable_some (s : string) : truthy s = true -> usable (Some s) = Some s.
Proof. intros H. unfold usable. rewrite H. reflexivity. Qed.

(** What the [change] handler does to the three parts of the browser. *)
Lemma on_change_parts (b : Browser) :
  editor (on_change b) = set_hasUnsavedChanges true (editor b) /\
  failure (localStorage (on_change b)) = failure (localStorage b) /\
  (failure (localStorage b) = None ->
   items (localStorage (on_change b)) =
     <["editor_filename" := fileName (editor b)]>
       (<["editor_content" := value (editor b)]> (items (localStorage b)))) /\
  (failure (localStorage b) <> None -> localStorage (on_change b) = localStorage b) /\
  fileNameText (document (on_change b)) =
    displayName (set_hasUnsavedChanges true (editor b)) /\
  title (document (on_change b)) =
    (displayName (set_hasUnsavedChanges true (editor b)) ++ " - Python Editor")%string /\
  dataTheme (document (on_change b)) = dataTheme (document b) /\
  downloads (on_change b) = downloads b.
Proof.
  unfold on_change, saveToStorage, setItem. cbn.
  destruct (failure (localStorage b)) as [e|] eqn:Hf; cbn; rewrite ?Hf;
    repeat split; try congruence; intros; congruence.
Qed.

Lemma setValue_parts (v : string) (b : Browser) :
  value (editor (setValue v b)) = v /\
  fileName (editor (setValue v b)) = fileName (editor b) /\
  hasUnsavedChanges (editor (setValue v b)) = true /\
  isLightTheme (editor (setValue v b)) = isLightTheme (editor b) /\
  currentTheme (editor (setValue v b)) = currentTheme (editor b) /\
  themeOption (editor (setValue v b)) = themeOption (editor b) /\
  failure (localStorage (setValue v b)) = failure (localStorage b) /\
  (failure (localStorage b) = None ->
   items (localStorage (setValue v b)) =
     <["editor_filename" := fileName (editor b)]>
       (<["editor_content" := v]> (items (localStorage b)))) /\
  (failure (localStorage b) <> None -> localStorage (setValue v b) = localStorage b).
Proof.
  unfold setValue.
  destruct (on_change_parts (set_editor (set_value v (editor b)) b))
    as (He & Hf & Hi & Hn & _).
  rewrite He. cbn in *. repeat split; assumption.
Qed.

(** X10. A new editor is always named "untitled.py" and always marked as
    having unsaved changes, whatever the storage holds: reading the saved
    text (or the welcome text) into the editor fires the change handler,
    which writes the default name over the saved one before the saved name
    is read. The name saved by an earlier session is never brought back. *)
Theorem new_editor_forgets_file_name
    (textarea : string) (d : Document) (st : Storage) (dl : list (string * string)) :
  fileName (editor (constructor textarea d st dl)) = "untitled.py" /\
  hasUnsavedChanges (editor (constructor textarea d st dl)) = true /\
  (failure st = None ->
   items (localStorage (constructor textarea d st dl)) !! "editor_filename"
     = Some "untitled.py").
Proof.
  unfold constructor, loadFromStorage, getItem.
  set (b0 := mkBrowser _ d st dl).
  assert (F0 : fileName (editor b0) = "untitled.py") by reflexivity.
  assert (S0 : localStorage b0 = st) by reflexivity.
  destruct (failure (localStorage b0)) as [e|] eqn:Hf.
  - destruct (setValue_parts welcome_text b0) as (_ & H1 & H2 & _).
    rewrite H1, H2, F0. repeat split. rewrite S0 in Hf. congruence.
  - set (b1 := match usable (items (localStorage b0) !! "editor_theme") with
               | Some t => set_theme (String.eqb t "light") b0
               | None => b0
               end).
    assert (F1 : fileName (editor b1) = "untitled.py")
      by (unfold b1; destruct (usable _); exact F0).
    assert (S1 : localStorage b1 = localStorage b0)
      by (unfold b1; destruct (usable _); reflexivity).
    clearbody b1. rewrite S1, Hf.
    set (b2 := match usable (items (localStorage b0) !! "editor_content") with
               | Some c => setValue c b1
               | None => setValue welcome_text b1
               end).
    assert (H2 : fileName (editor b2) = "untitled.py" /\
                 hasUnsavedChanges (editor b2) = true /\
                 failure (localStorage b2) = None /\
                 items (localStorage b2) !! "editor_filename" = Some "untitled.py").
    { assert (G : forall v, fileName (editor (setValue v b1)) = "untitled.py" /\
                  hasUnsavedChanges (editor (setValue v b1)) = true /\
                  failure (localStorage (setValue v b1)) = None /\
                  items (localStorage (setValue v b1)) !! "editor_filename"
                    = Some "untitled.py").
      { intros v. destruct (setValue_parts v b1) as (_ & G1 & G2 & _ & _ & _ & G3 & G4 & _).
        rewrite G1, G2, G3, S1, Hf, F1. repeat split.
        rewrite G4 by (rewrite S1; exact Hf). rewrite F1. apply lookup_insert_eq. }
      unfold b2.
      destruct (usable (items (localStorage b0) !! "editor_content")); apply G. }
    clearbody b2. destruct H2 as (F2 & U2 & Hf2 & I2).
    rewrite Hf2, I2. rewrite usable_some by reflexivity. cbn.
    rewrite U2. repeat split. intros _. exact I2.
Qed.

Lemma failure_handle (b : Browser) (ev : Event) :
  failure (localStorage (handle b ev)) = failure (localStorage b).
Proof.
  destruct ev as [v|c| |n t|]; unfold handle.
  - destruct (on_change_parts (set_editor (set_value v (editor b)) b)) as (_ & H & _).
    exact H.
  - unfold newFile. destruct (hasUnsavedChanges (editor b) && negb c); [reflexivity|].
    destruct (setValue_parts new_file_text b) as (_ & _ & _ & _ & _ & _ & H & _).
    exact H.
  - reflexivity.
  - unfold loadFile_onload.
    destruct (setValue_parts t b) as (_ & _ & _ & _ & _ & _ & H & _). exact H.
  - unfold toggleTheme. cbn. destruct (failure (localStorage b)) eqn:Hf; cbn; congruence.
Qed.

Lemma failure_session (evs : list Event) (b : Browser) :
  failure (localStorage (session evs b)) = failure (localStorage b).
Proof.
  unfold session. revert b. induction evs as [|ev evs IH]; intros b; [reflexivity|].
  cbn [fold_left]. rewrite IH. apply failure_handle.
Qed.

(** The browser after [setValue], when only the editor's name and mark are
    then changed and shown. *)
Lemma consistent_after_setValue (v name : string) (b : Browser) :
  consistent b ->
  consistent
    (updateFileName
       (set_editor
          (set_hasUnsavedChanges false (set_fileName name (editor (setValue v b))))
          (setValue v b))).
Proof.
  intros (C1 & C2 & C3 & C4 & _ & _).
  destruct (setValue_parts v b) as (V1 & V2 & V3 & V4 & V5 & V6 & V7 & V8 & V9).
  unfold consistent. cbn. rewrite V1, V4, V5, V6, V7.
  split; [|split; [|repeat split; assumption]].
  - intros Hf. rewrite (V8 Hf). rewrite lookup_insert_ne by discriminate.
    apply lookup_insert_eq.
  - intros Hf. rewrite (V8 Hf). rewrite !lookup_insert_ne by discriminate.
    apply C2, Hf.
Qed.

Lemma consistent_on_change (v : string) (b : Browser) :
  consistent b -> consistent (on_change (set_editor (set_value v (editor b)) b)).
Proof.
  intros (C1 & C2 & C3 & C4 & _ & _).
  destruct (on_change_parts (set_editor (set_value v (editor b)) b))
    as (He & Hf & Hi & _ & Hn & Ht & _).
  unfold consistent. rewrite He, Hf, Hn, Ht. cbn in *.
  split; [|split; [|repeat split; assumption]].
  - intros H. rewrite (Hi H). rewrite lookup_insert_ne by discriminate.
    apply lookup_insert_eq.
  - intros H. rewrite (Hi H). rewrite !lookup_insert_ne by discriminate.
    apply C2, H.
Qed.

Lemma consistent_handle (b : Browser) (ev : Event) :
  consistent b -> consistent (handle b ev).
Proof.
  intros C. destruct ev as [v|c| |n t|]; unfold handle.
  - apply consistent_on_change, C.
  - unfold newFile. destruct (hasUnsavedChanges (editor b) && negb c); [exact C|].
    pose proof (consistent_after_setValue new_file_text "untitled.py" b C) as H.
    unfold consistent in *. cbn in *. exact H.
  - destruct C as (C1 & C2 & C3 & C4 & _ & _).
    unfold consistent, saveFile. cbn. repeat split; assumption.
  - unfold loadFile_onload.
    pose proof (consistent_after_setValue t n b C) as H.
    unfold consistent in *. cbn in *. exact H.
  - destruct C as (C1 & C2 & C3 & C4 & C5 & C6).
    unfold consistent, toggleTheme. cbn.
    destruct (failure (localStorage b)) as [e|] eqn:Hf; cbn; rewrite ?Hf.
    + repeat split; try assumption; try discriminate.
    + split; [|split; [|repeat split; try assumption]].
      * intros _. rewrite lookup_insert_ne by discriminate. apply C1. reflexivity.
      * intros _. rewrite lookup_insert_eq.
        destruct (isLightTheme (editor b)); reflexivity.
Qed.

Lemma consistent_session (evs : list Event) (b : Browser) :
  consistent b -> consistent (session evs b).
Proof.
  unfold session. revert b. induction evs as [|ev evs IH]; intros b C; [exact C|].
  cbn [fold_left]. apply IH, consistent_handle, C.
Qed.

(** [loadFromStorage] on a working storage, for an editor with a name. *)
Lemma loadFromStorage_available (b0 : Browser) :
  failure (localStorage b0) = None ->
  truthy (fileName (editor b0)) = true ->
  loadFromStorage b0 =
    let b1 :=
      match usable (items (localStorage b0) !! "editor_theme") with
      | Some t => set_theme (String.eqb t "light") b0
      | None => b0
      end in
    let b2 :=
      setValue
        match usable (items (localStorage b0) !! "editor_content") with
        | Some c => c
        | None => welcome_text
        end b1 in
    updateFileName (set_editor (set_fileName (fileName (editor b0)) (editor b2)) b2).
Proof.
  intros Hf Hn. unfold loadFromStorage, getItem. rewrite Hf.
  set (b1 := match usable (items (localStorage b0) !! "editor_theme") with
             | Some t => set_theme (String.eqb t "light") b0
             | None => b0
             end).
  assert (F1 : fileName (editor b1) = fileName (editor b0))
    by (unfold b1; destruct (usable _); reflexivity).
  assert (S1 : localStorage b1 = localStorage b0)
    by (unfold b1; destruct (usable _); reflexivity).
  clearbody b1. cbv zeta. rewrite S1, Hf.
  set (v := match usable (items (localStorage b0) !! "editor_content") with
            | Some c => c
            | None => welcome_text
            end).
  replace (match usable (items (localStorage b0) !! "editor_content") with
           | Some c => setValue c b1
           | None => setValue welcome_text b1
           end) with (setValue v b1)
    by (unfold v; destruct (usable _); reflexivity).
  destruct (setValue_parts v b1) as (_ & _ & _ & _ & _ & _ & G3 & G4 & _).
  rewrite G3, S1, Hf, G4 by (rewrite S1; exact Hf).
  rewrite lookup_insert_eq, F1, usable_some by exact Hn. reflexivity.
Qed.

Lemma consistent_constructor
    (textarea : string) (d : Document) (st : Storage) (dl : list (string * string)) :
  consistent (constructor textarea d st dl).
Proof.
  unfold constructor.
  set (b0 := mkBrowser _ d st dl).
  destruct (failure st) as [e|] eqn:Hf.
  - unfold loadFromStorage, getItem. change (localStorage b0) with st. rewrite Hf.
    destruct (on_change_parts (set_editor (set_value welcome_text (editor b0)) b0))
      as (He & Hf' & _ & _ & Hn & Ht & _).
    unfold setValue, consistent. rewrite He, Hf', Hn, Ht. cbn. rewrite Hf.
    repeat split; discriminate.
  - rewrite loadFromStorage_available by (try exact Hf; reflexivity).
    cbv zeta. change (localStorage b0) with st.
    set (b1 := match usable (items st !! "editor_theme") with
               | Some t => set_theme (String.eqb t "light") b0
               | None => b0
               end).
    set (v := match usable (items st !! "editor_content") with
              | Some c => c
              | None => welcome_text
              end).
    assert (T1 : isLightTheme (editor b1) =
                 match usable (items st !! "editor_theme") with
                 | Some t => String.eqb t "light"
                 | None => false
                 end /\
                 currentTheme (editor b1) =
                   (if isLightTheme (editor b1) then "default" else "monokai") /\
                 themeOption (editor b1) = currentTheme (editor b1) /\
                 localStorage b1 = st).
    { unfold b1. destruct (usable (items st !! "editor_theme")); repeat split. }
    clearbody b1. destruct T1 as (T1 & T2 & T3 & S1).
    destruct (setValue_parts v b1) as (V1 & V2 & V3 & V4 & V5 & V6 & V7 & V8 & _).
    unfold consistent. cbn. rewrite V1, V4, V5, V6, V7, S1, Hf.
    split; [|split; [|repeat split; assumption]].
    + intros _. rewrite V8 by (rewrite S1; exact Hf). rewrite S1.
      rewrite lookup_insert_ne by discriminate. apply lookup_insert_eq.
    + intros _. rewrite V8 by (rewrite S1; exact Hf). rewrite S1.
      rewrite !lookup_insert_ne by discriminate. exact T1.
Qed.


Lemma failure_constructor
    (textarea : string) (d : Document) (st : Storage) (dl : list (string * string)) :
  failure (localStorage (constructor textarea d st dl)) = failure st.
Proof.
  unfold constructor. set (b0 := mkBrowser _ d st dl).
  destruct (failure st) as [e|] eqn:Hf.
  - unfold loadFromStorage, getItem. change (localStorage b0) with st. rewrite Hf.
    destruct (setValue_parts welcome_text b0) as (_ & _ & _ & _ & _ & _ & H & _).
    rewrite H. exact Hf.
  - rewrite loadFromStorage_available by (try exact Hf; reflexivity).
    cbv zeta. cbn [localStorage updateFileName set_document set_editor].
    match goal with
    | |- failure (localStorage (setValue ?v ?b1)) = _ =>
        destruct (setValue_parts v b1) as (_ & _ & _ & _ & _ & _ & H & _); rewrite H
    end.
    destruct (usable (items (localStorage b0) !! "editor_theme")); exact Hf.
Qed.



Lemma constructor_theme
    (textarea : string) (d : Document) (st : Storage) (dl : list (string * string)) :
  failure st = None ->
  isLightTheme (editor (constructor textarea d st dl)) =
    match usable (items st !! "editor_theme") with
    | Some t => String.eqb t "light"
    | None => false
    end.
Proof.
  intros Hf. unfold constructor.
  rewrite loadFromStorage_available by (try exact Hf; reflexivity).
  cbv zeta. cbn [editor isLightTheme set_editor updateFileName set_document set_fileName].
  match goal with
  | |- isLightTheme (editor (setValue ?v ?b1)) = _ =>
      destruct (setValue_parts v b1) as (_ & _ & _ & H & _); rewrite H
  end.
  cbn [localStorage].
  destruct (usable (items st !! "editor_theme")); reflexivity.
Qed.

(** X12. What a session leaves in a working storage brings its theme back:
    a new editor built on that storage has the light flag, the theme name
    and the CodeMirror theme option that the editor had at the end of the
    session, however many times the theme was toggled. *)
Theorem reload_brings_back_the_theme
    (textarea textarea' : string) (d d' : Document) (st : Storage)
    (dl dl' : list (string * string)) (evs : list Event) :
  failure st = None ->
  let b := session evs (constructor textarea d st dl) in
  let b' := constructor textarea' d' (localStorage b) dl' in
  isLightTheme (editor b') = isLightTheme (editor b) /\
  currentTheme (editor b') = currentTheme (editor b) /\
  themeOption (editor b') = themeOption (editor b).
Proof.
  intros Hf b b'.
  assert (Hfb : failure (localStorage b) = None)
    by (unfold b; rewrite failure_session, failure_constructor; exact Hf).
  destruct (consistent_session evs _ (consistent_constructor textarea d st dl))
    as (_ & C2 & C3 & C4 & _).
  fold b in C2, C3, C4.
  destruct (consistent_constructor textarea' d' (localStorage b) dl')
    as (_ & _ & D3 & D4 & _).
  fold b' in D3, D4.
  assert (E : isLightTheme (editor b') = isLightTheme (editor b)).
  { unfold b'. rewrite constructor_theme by exact Hfb. symmetry. apply C2, Hfb. }
  split; [exact E|]. rewrite D4, C4, D3, C3, E. split; reflexivity.
Qed.

Lemma reload_brings_back_the_theme_witness :
  isLightTheme
    (editor
       (constructor "" blank_document
          (localStorage
             (session sample_session (constructor "" blank_document empty_storage [])))
          [])) = true.
Proof.
  destruct (reload_brings_back_the_theme "" "" blank_document blank_document
              empty_storage [] [] sample_session eq_refl) as (H & _).
  rewrite H. reflexivity.
Defined.

(** X13. The document always shows the file name as the editor has it:
    after the construction and any session, the file name element holds the
    name, followed by the unsaved mark exactly when there are unsaved
    changes, and the title holds the same text followed by
    " - Python Editor". After an edit the mark is shown, after a save it is
    not. *)
Theorem document_shows_name_and_mark
    (textarea : string) (d : Document) (st : Storage) (dl : list (string * string))
    (evs : list Event) (v : string) :
  let b := session evs (constructor textarea d st dl) in
  fileNameText (document b) = displayName (editor b) /\
  title (document b) = (displayName (editor b) ++ " - Python Editor")%string /\
  fileNameText (document (input v b)) = (fileName (editor b) ++ " " ++ bullet)%string /\
  fileNameText (document (saveFile b)) = fileName (editor b) /\
  fileName (editor (input v b)) = fileName (editor b) /\
  fileName (editor (saveFile b)) = fileName (editor b).
Proof.
  intros b.
  destruct (consistent_session evs _ (consistent_constructor textarea d st dl))
    as (_ & _ & _ & _ & C5 & C6).
  fold b in C5, C6.
  split; [exact C5|]. split; [exact C6|].
  destruct (on_change_parts (set_editor (set_value v (editor b)) b))
    as (He & _ & _ & _ & Hn & _).
  unfold input. rewrite Hn, He. repeat split.
Qed.



(** ** The editor: comments and completions *)

Lemma all_whitespace_leading_space (s : string) :
  all_whitespace (leading_space s) = true.
Proof.
  induction s as [|c s IH]; [reflexivity|]. cbn [leading_space].
  destruct (is_whitespace c) eqn:Hc; [|reflexivity].
  cbn [all_whitespace]. rewrite Hc. exact IH.
Qed.

Lemma trimStart_app_blank (w s : string) :
  all_whitespace w = true -> trimStart (w ++ s) = trimStart s.
Proof.
  induction w as [|c w IH]; [reflexivity|]. simpl.
  destruct (is_whitespace c); [exact IH | discriminate].
Qed.

Lemma trim_hash_head (s : string) : startsWith (trimEnd (String "#" s)) "#" = true.
Proof.
  cbn [trimEnd]. destruct (trimEnd s); reflexivity.
Qed.

(** X15. Commenting a line and uncommenting it again does not give the line
    back: for a line that is not a comment, toggleComment first yields a
    comment line (the indentation, "# ", the trimmed line), and toggling that
    line yields the trimmed line, without the indentation and without the
    trailing white space. *)
Theorem toggleComment_twice_trims (line : string) :
  startsWith (trim line) "#" = false ->
  toggleComment_line line = (leading_space line ++ "# " ++ trim line)%string /\
  startsWith (trim (toggleComment_line line)) "#" = true /\
  toggleComment_line (toggleComment_line line) = trim line.
Proof.
  intros H.
  assert (E : toggleComment_line line = (leading_space line ++ "# " ++ trim line)%string)
    by (unfold toggleComment_line; rewrite H; reflexivity).
  assert (T : trimStart (toggleComment_line line) = ("# " ++ trim line)%string).
  { rewrite E, trimStart_app_blank by apply all_whitespace_leading_space. reflexivity. }
  assert (S : startsWith (trim (toggleComment_line line)) "#" = true).
  { unfold trim at 1. rewrite T. apply trim_hash_head. }
  split; [exact E|]. split; [exact S|].
  unfold toggleComment_line at 1. rewrite S.
  unfold strip_comment_mark. rewrite T. reflexivity.
Qed.

Lemma toggleComment_twice_trims_witness :
  toggleComment_line "    x = 1  " = "    # x = 1" /\
  toggleComment_line (toggleComment_line "    x = 1  ") = "x = 1".
Proof.
  destruct (toggleComment_twice_trims "    x = 1  " eq_refl) as (H1 & _ & H3).
  split; [exact H1 | exact H3].
Defined.

(** X16. Uncommenting removes the indentation together with the mark: for
    a comment line made of white space, a hash and a body, toggleComment
    leaves the body, less one leading white space if it has one. *)
Theorem toggleComment_uncomment_drops_indent (indent body : string) :
  all_whitespace indent = true ->
  toggleComment_line (indent ++ "#" ++ body) =
    match body with
    | String c body' => if is_whitespace c then body' else body
    | EmptyString => EmptyString
    end.
Proof.
  intros H.
  assert (T : trimStart (indent ++ "#" ++ body) = String "#" body)
    by (rewrite trimStart_app_blank by exact H; reflexivity).
  unfold toggleComment_line. unfold trim. rewrite T.
  rewrite trim_hash_head. unfold strip_comment_mark. rewrite T. reflexivity.
Qed.

Lemma toggleComment_uncomment_drops_indent_witness :
  toggleComment_line ("    " ++ "#" ++ " x = 1") = "x = 1".
Proof.
  exact (toggleComment_uncomment_drops_indent "    " " x = 1" eq_refl).
Defined.

(** *** Completions *)

Lemma insert_sorted_perm (x : string) (l : list string) :
  Permutation (insert_sorted x l) (x :: l).
Proof.
  induction l as [|y l IH]; cbn [insert_sorted]; [reflexivity|].
  destruct (String.leb x y); [reflexivity|].
  rewrite IH. apply perm_swap.
Qed.

Lemma sort_perm (l : list string) : Permutation (sort l) l.
Proof.
  induction l as [|x l IH]; cbn [sort]; [reflexivity|].
  rewrite insert_sorted_perm. apply perm_skip, IH.
Qed.

Lemma insert_sorted_sorted (x : string) (l : list string) :
  Sorted code_unit_order l -> Sorted code_unit_order (insert_sorted x l).
Proof.
  induction l as [|y l IH]; intros Hs; cbn [insert_sorted].
  - repeat constructor.
  - destruct (String.leb x y) eqn:Hxy.
    + constructor; [exact Hs|]. constructor. exact Hxy.
    + assert (Hyx : code_unit_order y x)
        by (destruct (String.leb_total x y) as [H|H]; [congruence | exact H]).
      inversion Hs as [|? ? Hs' Hhd]; subst.
      constructor; [apply IH, Hs'|].
      destruct l as [|z l]; cbn [insert_sorted].
      * constructor. exact Hyx.
      * destruct (String.leb x z); constructor; [exact Hyx|].
        inversion Hhd; assumption.
Qed.

Lemma sort_sorted (l : list string) : Sorted code_unit_order (sort l).
Proof.
  induction l as [|x l IH]; cbn [sort]; [constructor|].
  apply insert_sorted_sorted, IH.
Qed.

(** X17. The names the hint helper suggests are exactly the keywords and
    built-ins that begin with the typed word, letter case apart, each as
    many times as it is listed, in the order of their code units (capitals
    first); for a word of two letters or more the patterns come before them;
    and the helper returns null for an empty word or when nothing is left to
    suggest. *)
Theorem hint_suggestions (word : string) :
  hint EmptyString = None /\
  (truthy word = true ->
   exists names,
     Sorted code_unit_order names /\
     Permutation names
       (List.filter (completes word) (pythonKeywords ++ pythonBuiltins)) /\
     (forall item,
        In item names <->
        In item (pythonKeywords ++ pythonBuiltins) /\
        startsWith (toLowerCase item) (toLowerCase word) = true) /\
     hint word =
       match (if (2 <=? String.length word)%nat then getPythonPatterns word else [])
               ++ names with
       | [] => None
       | l => Some l
       end).
Proof.
  split; [reflexivity|]. intros Hw.
  exists (sort (List.filter (completes word) (pythonKeywords ++ pythonBuiltins))).
  split; [apply sort_sorted|]. split; [apply sort_perm|]. split.
  - intros item.
    change (startsWith (toLowerCase item) (toLowerCase word)) with (completes word item).
    rewrite <- filter_In. split; intros H.
    + eapply Permutation_in; [apply sort_perm | exact H].
    + eapply Permutation_in; [symmetry; apply sort_perm | exact H].
  - unfold hint. rewrite Hw. cbn [negb].
    destruct (2 <=? String.length word)%nat; cbn [app];
      match goal with
      | |- match ?l with _ => _ end = _ => destruct l; reflexivity
      end.
Qed.

Lemma hint_suggestions_witness :
  hint "Tr" = Some [try_pattern; "True"; "try"].
Proof.
  destruct (hint_suggestions "Tr") as (_ & H).
  destruct (H eq_refl) as (names & _ & _ & _ & _). reflexivity.
Defined.

Lemma count_occ_filter (f : string -> bool) (l : list string) (x : string) :
  count_occ string_dec (List.filter f l) x =
    if f x then count_occ string_dec l x else 0.
Proof.
  induction l as [|y l IH]; cbn [List.filter count_occ]; [destruct (f x); reflexivity|].
  destruct (f y) eqn:Hy; cbn [count_occ]; destruct (string_dec y x) as [->|Hne];
    rewrite IH; try rewrite Hy; reflexivity.
Qed.

Lemma patterns_come_from_the_list (word p : string) :
  In p (getPythonPatterns word) -> In p all_patterns.
Proof.
  unfold getPythonPatterns. rewrite !in_app_iff. intros H.
  repeat destruct H as [H|H];
    match type of H with
    | In _ (if ?c then _ else _) => destruct c
    end;
    cbn [In] in H; unfold all_patterns; cbn [In]; intuition auto 10.
Qed.

Lemma no_pattern_is_a_name :
  forallb (fun p => negb (existsb (String.eqb p) (pythonKeywords ++ pythonBuiltins)))
          all_patterns = true.
Proof. vm_compute. reflexivity. Qed.

Lemma patterns_are_not_names (word item : string) :
  In item (pythonKeywords ++ pythonBuiltins) ->
  count_occ string_dec (getPythonPatterns word) item = 0.
Proof.
  intros Hin. apply count_occ_not_In. intros Hp.
  apply patterns_come_from_the_list in Hp.
  pose proof (proj1 (forallb_forall _ _) no_pattern_is_a_name item Hp) as H.
  apply negb_true_iff in H.
  assert (E : existsb (String.eqb item) (pythonKeywords ++ pythonBuiltins) = true).
  { apply existsb_exists. exists item. split; [exact Hin | apply String.eqb_refl]. }
  congruence.
Qed.

(** X18. The names "exec" and "print" are in both lists the hint helper
    draws from, and nothing removes duplicates: whenever the typed word is a
    beginning of one of them, that name is suggested twice. *)
Theorem hint_suggests_twice (word item : string) (l : list string) :
  item = "exec" \/ item = "print" ->
  startsWith (toLowerCase item) (toLowerCase word) = true ->
  hint word = Some l ->
  count_occ string_dec l item = 2.
Proof.
  intros Hitem Hc Hh. unfold hint in Hh.
  destruct (truthy word); cbn [negb] in Hh; [|discriminate].
  set (names := sort (List.filter (completes word) (pythonKeywords ++ pythonBuiltins))) in Hh.
  assert (Hn : count_occ string_dec names item = 2).
  { unfold names.
    rewrite (proj1 (Permutation_count_occ string_dec _ _) (sort_perm _) item).
    rewrite count_occ_filter. unfold completes. rewrite Hc.
    destruct Hitem as [->| ->]; reflexivity. }
  assert (Hp : count_occ string_dec (getPythonPatterns word) item = 0).
  { apply patterns_are_not_names.
    assert (E : existsb (String.eqb item) (pythonKeywords ++ pythonBuiltins) = true)
      by (destruct Hitem as [->| ->]; vm_compute; reflexivity).
    apply existsb_exists in E. destruct E as (x & Hx & Ex).
    apply String.eqb_eq in Ex. subst x. exact Hx. }
  destruct (2 <=? String.length word)%nat.
  - destruct (getPythonPatterns word ++ names) as [|x l0] eqn:E; [discriminate|].
    injection Hh as <-. rewrite <- E, count_occ_app, Hp, Hn. reflexivity.
  - destruct names as [|x l0] eqn:E; [discriminate|].
    injection Hh as <-. exact Hn.
Qed.

Lemma hint_suggests_twice_witness :
  count_occ string_dec ["print"; "print"; "property"] "print" = 2.
Proof.
  exact (hint_suggests_twice "PR" "print" ["print"; "print"; "property"]
           (or_intror eq_refl) eq_refl eq_refl).
Defined.

Lemma toLowerCase_length (s : string) : String.length (toLowerCase s) = String.length s.
Proof. induction s as [|c s IH]; cbn; [reflexivity | rewrite IH; reflexivity]. Qed.

(** Case analysis on the comparisons of a code unit with a letter. *)
Ltac compare_units :=
  repeat match goal with
         | |- context [ascii_dec ?a ?b] =>
             destruct (ascii_dec a b) as [?|?]; [subst|]; try congruence
         | |- context [Ascii.eqb ?a ?b] =>
             destruct (Ascii.eqb_spec a b) as [?|?]; [subst|]; try congruence
         end.

(** X19. The tests of getPythonPatterns exclude one another: for any word
    it returns the patterns of at most one construct (the two import forms
    together), whatever the letter case. And since the hint helper asks for
    patterns only for words of two letters or more, "if condition:" is only
    ever suggested for a word that begins with "if": the test for the single
    letter "i" is never the one that adds it. *)
Theorem patterns_of_one_construct (word : string) (l : list string) :
  In (getPythonPatterns word) pattern_groups /\
  (hint word = Some l -> In "if condition:" l ->
   startsWith (toLowerCase word) "if" = true).
Proof.
  split.
  - unfold getPythonPatterns, pattern_groups, startsWith.
    destruct (toLowerCase word) as [|c1 [|c2 [|c3 rest]]];
      cbn [String.prefix String.eqb]; compare_units;
      try (destruct rest); cbn; auto 10.
  - intros Hh Hin. unfold hint in Hh.
    destruct (truthy word); cbn [negb] in Hh; [|discriminate].
    assert (Hnames : forall names,
               (forall x, In x names -> In x (pythonKeywords ++ pythonBuiltins)) ->
               ~ In "if condition:" names).
    { intros names Hsub Hx. apply Hsub in Hx.
      assert (E : existsb (String.eqb "if condition:")
                    (pythonKeywords ++ pythonBuiltins) = true).
      { apply existsb_exists. eexists. split; [exact Hx | apply String.eqb_refl]. }
      vm_compute in E. discriminate E. }
    assert (Hsort : ~ In "if condition:"
                      (sort (List.filter (completes word)
                               (pythonKeywords ++ pythonBuiltins)))).
    { apply Hnames. intros x Hx.
      apply (Permutation_in _ (sort_perm _)) in Hx.
      apply filter_In in Hx. apply Hx. }
    destruct (2 <=? String.length word)%nat eqn:Hlen.
    + destruct (getPythonPatterns word ++ _) as [|x l0] eqn:E; [discriminate|].
      injection Hh as <-. rewrite <- E in Hin. apply in_app_or in Hin.
      destruct Hin as [Hin|Hin]; [|contradiction].
      apply Nat.leb_le in Hlen. rewrite <- toLowerCase_length in Hlen.
      unfold getPythonPatterns, startsWith in *.
      destruct (toLowerCase word) as [|c1 [|c2 [|c3 rest]]];
        cbn [String.length] in Hlen; try lia;
        revert Hin; cbn [String.prefix String.eqb]; compare_units;
        try (destruct rest); cbn; intuition discriminate.
    + destruct (sort _) as [|x l0] eqn:E; [discriminate|].
      injection Hh as <-. contradiction.
Qed.

Lemma patterns_of_one_construct_witness :
  hint "IF" = Some ["if condition:"; "if"] /\
  startsWith (toLowerCase "IF") "if" = true.
Proof.
  destruct (patterns_of_one_construct "IF" ["if condition:"; "if"]) as (_ & H).
  split; [reflexivity | exact (H eq_refl (or_introl eq_refl))].
Defined.

End EditorFacts.
